(** * test-server.py: the diagnostic HTTP server behind the proxy check

    A shallow embedding of [src/test-server.py].  The script computes the
    module constant [PORT] from [sys.argv], defines the request handler class
    [TestHandler] (methods [log_message], [do_OPTIONS], [do_GET]) and, when
    run as a program, builds an [HTTPServer] and serves until interrupted.

    Python text is kept as it is in the interpreter: a [str] is a sequence
    of code points, [bytes] a sequence of octets, and [str.encode()] is
    UTF-8.  The calls a handler makes on the inherited
    [BaseHTTPRequestHandler] interface ([send_response], [send_header],
    [end_headers], [wfile.write]) are recorded in the order they are made.
    What the library does inside those calls is not part of the script;
    of it, only the call of [log_message] that [send_response] makes is
    modelled, in [Served]. *)

From Stdlib Require Import List ZArith NArith String Ascii Bool Lia.
From Stdlib Require Import Decimal DecimalString DecimalZ.
Import ListNotations.

Open Scope N_scope.

(** ** Python text *)

Module Text.

(** A Python [str]: the sequence of its code points. *)
Definition pystr := list N.

(** A Python [bytes] object: octets, each below 256. *)
Definition octet := N.
Definition pybytes := list octet.

(** A literal of the script that only uses characters below 256; also the
    way text decoded as ISO-8859-1 (one character a byte) enters a [str]. *)
Definition lit (s : string) : pystr :=
  map N_of_ascii (list_ascii_of_string s).

(** The double quote, U+0022. *)
Definition dq : pystr := [34].

(** WHITE HEAVY CHECK MARK, U+2705, and ROCKET, U+1F680. *)
Definition check_mark : pystr := [0x2705].
Definition rocket : pystr := [0x1F680].

(** The line feed, U+000A. *)
Definition nl : pystr := [10].

(** [str(n)] of an [int], which is also what an f-string field [{n}]
    inserts: the decimal digits, with a minus sign when negative. *)
Definition str_of_int (n : Z) : pystr :=
  lit (NilZero.string_of_int (Z.to_int n)).

(** Reading [str(n)] back as a decimal numeral. *)
Definition read_decimal (s : string) : option Z :=
  option_map Z.of_int (NilZero.int_of_string s).

(** Comparison of two [str] values: lexicographic on code points. *)
Fixpoint str_lt (a b : pystr) : bool :=
  match a, b with
  | _, [] => false
  | [], _ :: _ => true
  | x :: a', y :: b' => (x <? y) || ((x =? y) && str_lt a' b')
  end.

Definition str_le (a b : pystr) : bool := negb (str_lt b a).

(** [x in s] for two [str] (or two [bytes]) values: [x] occurs in [s] as a
    contiguous run. *)
Definition Infix {A : Type} (x s : list A) : Prop :=
  exists pre post, s = pre ++ x ++ post.

(** The same as a search: does [x] start [s], does [x] occur in [s]. *)
Fixpoint starts_with (x s : list N) : bool :=
  match x, s with
  | [], _ => true
  | _ :: _, [] => false
  | a :: x', b :: s' => (a =? b) && starts_with x' s'
  end.

Fixpoint occurs (x s : list N) : bool :=
  starts_with x s ||
  match s with
  | [] => false
  | _ :: s' => occurs x s'
  end.

(** *** UTF-8, the codec of [str.encode()] *)

Definition is_surrogate (c : N) : bool := (0xD800 <=? c) && (c <=? 0xDFFF).

Definition utf8_char (c : N) : option pybytes :=
  if c <? 0x80 then Some [c]
  else if c <? 0x800 then
    Some [N.lor 0xC0 (N.shiftr c 6); N.lor 0x80 (N.land c 0x3F)]
  else if c <? 0x10000 then
    if is_surrogate c then None
    else Some [N.lor 0xE0 (N.shiftr c 12);
               N.lor 0x80 (N.land (N.shiftr c 6) 0x3F);
               N.lor 0x80 (N.land c 0x3F)]
  else if c <? 0x110000 then
    Some [N.lor 0xF0 (N.shiftr c 18);
          N.lor 0x80 (N.land (N.shiftr c 12) 0x3F);
          N.lor 0x80 (N.land (N.shiftr c 6) 0x3F);
          N.lor 0x80 (N.land c 0x3F)]
  else None.

(** [s.encode()]; [None] stands for [UnicodeEncodeError] (a lone surrogate
    in [s]). *)
Fixpoint encode (s : pystr) : option pybytes :=
  match s with
  | [] => Some []
  | c :: s' =>
      match utf8_char c, encode s' with
      | Some b, Some bs => Some (b ++ bs)
      | _, _ => None
      end
  end.

(** A code point that UTF-8 encodes. *)
Definition encodable (c : N) : Prop :=
  c < 0xD800 \/ (0xDFFF < c /\ c < 0x110000).

(** A text of ASCII characters only; UTF-8 leaves it as it is. *)
Definition ascii_only (s : pystr) : Prop := Forall (fun c => c < 128) s.

(** The text [x], encoded, occurs in the bytes [data]. *)
Definition embeds (x : pystr) (data : pybytes) : Prop :=
  exists b, encode x = Some b /\ Infix b data.

(** The UTF-8 bytes of a character below 256, written out: the character
    itself when it is below 128, and otherwise the two bytes [110000xx]
    [10xxxxxx]. *)
Definition latin1_bytes (c : N) : pybytes :=
  if c <? 128 then [c] else [192 + c / 64; 128 + c mod 64].

(** The UTF-8 bytes of a text of characters below 256. *)
Definition utf8_latin1 (s : string) : pybytes :=
  flat_map latin1_bytes (lit s).

End Text.

Import Text.

(** ** [datetime] *)

Module Datetime.

(** A naive [datetime] value, as [datetime.now()] returns it. *)
Record datetime := mkDatetime {
  year : N; month : N; day : N;
  hour : N; minute : N; second : N; microsecond : N
}.

(** The field ranges of a [datetime] (the days of the month not told
    apart). *)
Definition in_range (d : datetime) : Prop :=
  1 <= year d <= 9999 /\ 1 <= month d <= 12 /\ 1 <= day d <= 31 /\
  hour d <= 23 /\ minute d <= 59 /\ second d <= 59 /\
  microsecond d <= 999999.

(** The last [w] decimal digits of [n], most significant first. *)
Fixpoint digits (w : nat) (n : N) : pystr :=
  match w with
  | O => []
  | S w' => digits w' (n / 10) ++ [48 + n mod 10]
  end.

(** The decimal digits of [n], without sign or padding. *)
Definition decimal (n : N) : pystr :=
  lit (NilZero.string_of_uint (N.to_uint n)).

(** The conversion [%0wd]: zero padded to at least [w] digits. *)
Definition zpad (w : nat) (n : N) : pystr :=
  if n <? 10 ^ N.of_nat w then digits w n else decimal n.

(** [d.isoformat()] of a naive [datetime]:
    [YYYY-MM-DDTHH:MM:SS], followed by [.ffffff] when the microsecond is
    not zero. *)
Definition isoformat (d : datetime) : pystr :=
  zpad 4 (year d) ++ lit "-" ++ zpad 2 (month d) ++ lit "-" ++
  zpad 2 (day d) ++ lit "T" ++ zpad 2 (hour d) ++ lit ":" ++
  zpad 2 (minute d) ++ lit ":" ++ zpad 2 (second d) ++
  (if microsecond d =? 0 then [] else lit "." ++ zpad 6 (microsecond d)).

(** The characters of a timestamp or of a numeral: the digits and
    [-], [.], [:], [T], all between U+002D and U+0054. *)
Definition stamp_chars (s : pystr) : Prop :=
  Forall (fun c => 45 <= c /\ c <= 84) s.

(** The order of [datetime] values: the fields compared in turn, as
    [str_lt] compares code points. *)
Definition fields (d : datetime) : list N :=
  [year d; month d; day d; hour d; minute d; second d; microsecond d].

Definition dt_lt (a b : datetime) : bool := str_lt (fields a) (fields b).

(** *** Reading a timestamp back

    [datetime.fromisoformat] on the two shapes [isoformat] writes,
    [YYYY-MM-DDTHH:MM:SS] and [YYYY-MM-DDTHH:MM:SS.ffffff]; any other text
    is refused. *)

Definition digit_of (c : N) : option N :=
  if (48 <=? c) && (c <=? 57) then Some (c - 48) else None.

(** The number written by the next [w] digits, after [acc]. *)
Fixpoint read_digits (w : nat) (acc : N) (s : pystr) : option (N * pystr) :=
  match w with
  | O => Some (acc, s)
  | S w' =>
      match s with
      | [] => None
      | c :: s' =>
          match digit_of c with
          | Some d => read_digits w' (10 * acc + d) s'
          | None => None
          end
      end
  end.

Definition expect (c : N) (s : pystr) : option pystr :=
  match s with
  | [] => None
  | x :: s' => if x =? c then Some s' else None
  end.

(** A field of [w] digits and the separator that ends it, if any. *)
Definition field (w : nat) (sep : option N) (s : pystr)
  : option (N * pystr) :=
  match read_digits w 0 s with
  | Some (n, s') =>
      match sep with
      | None => Some (n, s')
      | Some c => option_map (pair n) (expect c s')
      end
  | None => None
  end.

Definition fromisoformat (s : pystr) : option datetime :=
  match field 4 (Some 45) s with
  | Some (y, s) =>
  match field 2 (Some 45) s with
  | Some (mo, s) =>
  match field 2 (Some 84) s with
  | Some (d, s) =>
  match field 2 (Some 58) s with
  | Some (h, s) =>
  match field 2 (Some 58) s with
  | Some (mi, s) =>
  match field 2 None s with
  | Some (sec, []) => Some (mkDatetime y mo d h mi sec 0)
  | Some (sec, s) =>
      match expect 46 s with
      | Some s =>
          match field 6 None s with
          | Some (us, []) => Some (mkDatetime y mo d h mi sec us)
          | _ => None
          end
      | None => None
      end
  | None => None
  end | None => None end | None => None end | None => None end
  | None => None end | None => None end.

End Datetime.

Import Datetime.

(** ** The interpreter state a handler runs in *)

Module Runtime.

(** The exceptions the script can meet. *)
Inductive exn :=
| ValueError | TypeError | UnicodeEncodeError | OSError | OverflowError.

(** A value passed in [*args] to [log_message]. *)
Inductive pyval :=
| VStr (s : pystr)
| VInt (n : Z).

(** The calls a handler makes on the inherited [BaseHTTPRequestHandler]
    interface and on [self.wfile]. *)
Inductive call :=
| SendResponse (code : Z)
| SendHeader (keyword value : pystr)
| EndHeaders
| Write (data : pybytes)
| SendError (code : Z).

(** What a handler can change: the number of times the wall clock was read
    (reading [i] is [clock i]), the text written to standard output, and
    the calls made so far on the response being built. *)
Record state := mkState {
  ticks : nat;
  stdout : pystr;
  sent : list call
}.

(** A computation that returns a value or raises, and changes the state
    either way. *)
Definition M (A : Type) : Type := state -> (exn + A) * state.

Definition ret {A} (a : A) : M A := fun s => (inr a, s).

Definition raise {A} (e : exn) : M A := fun s => (inl e, s).

Definition bind {A B} (m : M A) (k : A -> M B) : M B :=
  fun s =>
    match m s with
    | (inl e, s') => (inl e, s')
    | (inr a, s') => k a s'
    end.

Definition emit (c : call) : M unit :=
  fun s => (inr tt, mkState (ticks s) (stdout s) (sent s ++ [c])).

(** [print(x)]: the text and a line feed on standard output. *)
Definition print (x : pystr) : M unit :=
  fun s => (inr tt, mkState (ticks s) (stdout s ++ x ++ nl) (sent s)).

(** [datetime.now()] against a clock whose successive readings are
    [clock 0], [clock 1], ... *)
Definition datetime_now (clock : nat -> datetime) : M datetime :=
  fun s => (inr (clock (ticks s)), mkState (S (ticks s)) (stdout s) (sent s)).

(** A partial result ([None] for the failure) raised as [e]. *)
Definition or_raise {A} (e : exn) (o : option A) : M A :=
  match o with
  | Some a => ret a
  | None => raise e
  end.

End Runtime.

Import Runtime.

Declare Scope py_scope.
Delimit Scope py_scope with py.
Notation "x <- m ;; k" := (bind m (fun x => k))
  (at level 61, m at next level, right associativity) : py_scope.
Notation "m ;; k" := (bind m (fun _ => k))
  (at level 61, right associativity) : py_scope.
Open Scope py_scope.

(** ** Line 12: the module constant [PORT] *)

Module Config.

Section Argv.

(** [int(s)] on a [str]: the integer, or [None] for [ValueError]. *)
Variable int : pystr -> option Z.

(** [PORT = int(sys.argv[1]) if len(sys.argv) > 1 else 5173] *)
Definition PORT (argv : list pystr) : exn + Z :=
  if (1 <? List.length argv)%nat then
    match int (nth 1 argv []) with
    | Some n => inr n
    | None => inl ValueError
    end
  else inr 5173%Z.

End Argv.

(** [int] on the plain decimal literals: an optional sign and then one or
    more of the digits 0 to 9.  (The builtin accepts more: surrounding
    white space, underscores between digits, other decimal digits.) *)
Fixpoint digits_value (acc : Z) (s : pystr) : option Z :=
  match s with
  | [] => Some acc
  | c :: s' =>
      if (48 <=? c) && (c <=? 57)
      then digits_value (10 * acc + Z.of_N (c - 48))%Z s'
      else None
  end.

Definition int_plain (s : pystr) : option Z :=
  match s with
  | [] => None
  | c :: ds =>
      if c =? 45 then
        match ds with
        | [] => None
        | _ :: _ => option_map Z.opp (digits_value 0%Z ds)
        end
      else if c =? 43 then
        match ds with
        | [] => None
        | _ :: _ => digits_value 0%Z ds
        end
      else digits_value 0%Z s
  end.

End Config.

(** ** Lines 14 to 98: [class TestHandler(BaseHTTPRequestHandler)] *)

Module TestHandler.

(** The attributes of the handler object the methods read.  The request
    line reaches the handler decoded as ISO-8859-1, so both are texts of
    characters below 256. *)
Record request := mkRequest {
  path : string;
  command : string
}.

Section Handler.

(** The module constant [PORT]. *)
Variable PORT : Z.

(** The wall clock behind [datetime.now()]. *)
Variable clock : nat -> datetime.

(** The operator [format % args]; [None] when it raises. *)
Variable percent : pystr -> list pyval -> option pystr.

(** Lines 15 and 16:
    [print(f"{datetime.now().isoformat()} - {format % args}")] *)
Definition log_message (self : request) (format : pystr) (args : list pyval)
  : M unit :=
  now <- datetime_now clock ;;
  msg <- or_raise TypeError (percent format args) ;;
  print (isoformat now ++ lit " - " ++ msg).

(** Lines 18 to 23. *)
Definition do_OPTIONS (self : request) : M unit :=
  emit (SendResponse 204) ;;
  emit (SendHeader (lit "Access-Control-Allow-Origin") (lit "*")) ;;
  emit (SendHeader (lit "Access-Control-Allow-Methods")
                   (lit "GET, POST, PUT, DELETE, OPTIONS")) ;;
  emit (SendHeader (lit "Access-Control-Allow-Headers") (lit "Content-Type")) ;;
  emit EndHeaders.

(** Lines 31 to 96: the f-string, with [now] the value of [datetime.now()]
    in its Time field. *)
Definition html (self : request) (now : datetime) : pystr :=
  lit "
<!DOCTYPE html>
<html lang=" ++ dq ++ lit "en" ++ dq ++ lit ">
<head>
  <meta charset=" ++ dq ++ lit "UTF-8" ++ dq ++ lit ">
  <meta name=" ++ dq ++ lit "viewport" ++ dq ++ lit " content=" ++ dq ++ lit "width=device-width, initial-scale=1.0" ++ dq ++ lit ">
  <title>Test Server - Port " ++ str_of_int PORT ++ lit "</title>
  <style>
    body {
      font-family: system-ui, -apple-system, sans-serif;
      max-width: 800px;
      margin: 50px auto;
      padding: 20px;
      background: #f5f5f5;
    }
    .container {
      background: white;
      padding: 40px;
      border-radius: 8px;
      box-shadow: 0 2px 4px rgba(0,0,0,0.1);
    }
    h1 { color: #2563eb; }
    .success { color: #16a34a; font-weight: bold; font-size: 1.2em; }
    .info { background: #eff6ff; padding: 15px; border-radius: 4px; margin: 20px 0; }
    code { background: #f1f5f9; padding: 2px 6px; border-radius: 3px; font-family: monospace; }
    pre { background: #1e293b; color: #e2e8f0; padding: 15px; border-radius: 4px; overflow-x: auto; }
  </style>
</head>
<body>
  <div class=" ++ dq ++ lit "container" ++ dq ++ lit ">
    <h1>" ++ check_mark ++ lit " Test Server Running</h1>
    <p class=" ++ dq ++ lit "success" ++ dq ++ lit ">Proxy is working correctly!</p>
    
    <div class=" ++ dq ++ lit "info" ++ dq ++ lit ">
      <strong>Server Info:</strong>
      <ul>
        <li>" ++ lit "Port: <code>" ++ str_of_int PORT ++ lit "</code>" ++ lit "</li>
        <li>" ++ lit "Request URL: <code>" ++ lit (path self) ++ lit "</code>" ++ lit "</li>
        <li>" ++ lit "Request Method: <code>" ++ lit (command self) ++ lit "</code>" ++ lit "</li>
        <li>" ++ lit "Time: <code>" ++ isoformat now ++ lit "</code>" ++ lit "</li>
      </ul>
    </div>
    
    <h2>How to Access:</h2>
    <ul>
      <li><strong>Direct:</strong> <code>http://localhost:" ++ str_of_int PORT ++ lit "/</code></li>
      <li><strong>Via Proxy:</strong> <code>http://localhost:8000/proxy/" ++ str_of_int PORT ++ lit "/</code></li>
    </ul>
    
    <h2>Test Commands:</h2>
    <pre><code># Direct access
curl http://localhost:" ++ str_of_int PORT ++ lit "/

# Via proxy
curl http://localhost:8000/proxy/" ++ str_of_int PORT ++ lit "/</code></pre>

    <h2>Next Steps:</h2>
    <ol>
      <li>This test server proves the proxy works</li>
      <li>Start your actual dev server (React, Vite, etc.)</li>
      <li>Access it via: <code>http://localhost:8000/proxy/[PORT]/</code></li>
    </ol>
  </div>
</body>
</html>
        ".

(** Lines 25 to 98: the status and the two headers, then the page (its
    Time field reads the clock), then [self.wfile.write(html.encode())]. *)
Definition do_GET (self : request) : M unit :=
  emit (SendResponse 200) ;;
  emit (SendHeader (lit "Content-Type") (lit "text/html")) ;;
  emit (SendHeader (lit "Access-Control-Allow-Origin") (lit "*")) ;;
  emit EndHeaders ;;
  now <- datetime_now clock ;;
  data <- or_raise UnicodeEncodeError (encode (html self now)) ;;
  emit (Write data).

(** The [do_] methods of the class, by name.  The base class has none. *)
Definition do_method (name : string) : option (request -> M unit) :=
  if String.eqb name "do_OPTIONS" then Some do_OPTIONS
  else if String.eqb name "do_GET" then Some do_GET
  else None.

(** How the base class serves a parsed request: the method called
    ["do_" + self.command] when the class has one, and otherwise its own
    [send_error(501)]. *)
Definition handle_one_request (self : request) : M unit :=
  match do_method ("do_" ++ command self)%string with
  | Some method => method self
  | None => emit (SendError 501)
  end.

End Handler.

(** *** The response a run of a handler has built *)

Record response := mkResponse {
  status : option Z;
  headers : list (pystr * pystr);
  body : pybytes
}.

Fixpoint status_of (l : list call) : option Z :=
  match l with
  | [] => None
  | SendResponse c :: _ => Some c
  | SendError c :: _ => Some c
  | _ :: l' => status_of l'
  end.

Fixpoint headers_of (l : list call) : list (pystr * pystr) :=
  match l with
  | [] => []
  | SendHeader k v :: l' => (k, v) :: headers_of l'
  | _ :: l' => headers_of l'
  end.

Fixpoint body_of (l : list call) : pybytes :=
  match l with
  | [] => []
  | Write d :: l' => d ++ body_of l'
  | _ :: l' => body_of l'
  end.

Definition response_of (l : list call) : response :=
  mkResponse (status_of l) (headers_of l) (body_of l).

(** The number of [send_response] calls in a run. *)
Fixpoint count_send_response (l : list call) : nat :=
  match l with
  | [] => O
  | SendResponse _ :: l' => S (count_send_response l')
  | _ :: l' => count_send_response l'
  end.

(** A handler method run for one request on a new handler object, with
    the clock read [n] times before and [out] on standard output: whether
    it raised, the response it built, and the state it leaves. *)
Definition serve (method : request -> M unit) (self : request)
    (n : nat) (out : pystr) : (exn + response) * state :=
  match method self (mkState n out []) with
  | (inl e, s) => (inl e, s)
  | (inr _, s) => (inr (response_of (sent s)), s)
  end.

(** [percent] for the formats that only use [%s] on [str] arguments and
    [%%]: each [%s] takes the next argument; too few or too many arguments,
    another conversion or another kind of argument raise. *)
Fixpoint percent_s (format : pystr) (args : list pyval) : option pystr :=
  match format with
  | [] => match args with [] => Some [] | _ :: _ => None end
  | c :: f' =>
      if c =? 37 then
        match f' with
        | [] => None
        | d :: f'' =>
            if d =? 115 then
              match args with
              | VStr a :: args' =>
                  option_map (fun r => a ++ r) (percent_s f'' args')
              | _ => None
              end
            else if d =? 37 then option_map (cons 37) (percent_s f'' args)
            else None
        end
      else option_map (cons c) (percent_s f' args)
  end.

End TestHandler.

Import TestHandler.

(** ** The handlers as the library runs them

    [send_response] is inherited from [BaseHTTPRequestHandler].  Before it
    records the status it calls [self.log_request(code)], which is
    [self.log_message('"%s" %s %s', self.requestline, str(code), '-')] and
    so reaches the [log_message] of the script.  (The [Server] and [Date]
    headers [send_response] adds after that are left out.) *)

Module Served.

(** The handler object: the parsed request and what the library keeps of
    the connection. *)
Record connection := mkConnection {
  client_address : string * Z;
  requestline : string;
  parsed : request
}.

Section Library.

Variable PORT : Z.
Variable clock : nat -> datetime.

Definition log_request (self : connection) (code : Z) : M unit :=
  log_message clock percent_s (parsed self)
    (dq ++ lit "%s" ++ dq ++ lit " %s %s")
    [VStr (lit (requestline self)); VStr (str_of_int code); VStr (lit "-")].

Definition send_response (self : connection) (code : Z) : M unit :=
  log_request self code ;;
  emit (SendResponse code).

(** Lines 18 to 23. *)
Definition do_OPTIONS (self : connection) : M unit :=
  send_response self 204 ;;
  emit (SendHeader (lit "Access-Control-Allow-Origin") (lit "*")) ;;
  emit (SendHeader (lit "Access-Control-Allow-Methods")
                   (lit "GET, POST, PUT, DELETE, OPTIONS")) ;;
  emit (SendHeader (lit "Access-Control-Allow-Headers") (lit "Content-Type")) ;;
  emit EndHeaders.

(** Lines 25 to 98. *)
Definition do_GET (self : connection) : M unit :=
  send_response self 200 ;;
  emit (SendHeader (lit "Content-Type") (lit "text/html")) ;;
  emit (SendHeader (lit "Access-Control-Allow-Origin") (lit "*")) ;;
  emit EndHeaders ;;
  now <- datetime_now clock ;;
  data <- or_raise UnicodeEncodeError (encode (html PORT (parsed self) now)) ;;
  emit (Write data).

End Library.

End Served.

(** ** Lines 100 to 116: the program *)

Module Script.

(** What the program does to the outside, in order. *)
Inductive event :=
| Bind (host : pystr) (port : Z)
| Print (line : pystr)
| ServeForever
| Shutdown.

(** Where the program stands. *)
Inductive status :=
| Crashed (e : exn)
| Serving (port : Z)
| Exited (code : Z).

(** The exit code of the process: 1 after an uncaught exception. *)
Definition exit_code (st : status) : option Z :=
  match st with
  | Crashed _ => Some 1%Z
  | Serving _ => None
  | Exited c => Some c
  end.

(** Lines 102 to 110. *)
Definition banner (PORT : Z) : list pystr :=
  [ lit "";
    rocket ++ lit " Test Server Started";
    lit "======================";
    lit "Port: " ++ str_of_int PORT;
    lit "Direct URL: http://localhost:" ++ str_of_int PORT ++ lit "/";
    lit "Proxy URL: http://localhost:8000/proxy/" ++ str_of_int PORT ++ lit "/";
    lit "";
    lit "Press Ctrl+C to stop";
    lit "" ].

Section Main.

Variable int : pystr -> option Z.

(** The constructor [HTTPServer((host, port), TestHandler)] binds and
    listens; [Some e] when it raises [e] instead. *)
Variable bind_error : Z -> option exn.

(** The script from line 12 to the call of [serve_forever]. *)
Definition main (argv : list pystr) : list event * status :=
  match Config.PORT int argv with
  | inl e => ([], Crashed e)
  | inr PORT =>
      match bind_error PORT with
      | Some e => ([], Crashed e)
      | None =>
          (Bind (lit "0.0.0.0") PORT :: map Print (banner PORT)
             ++ [ServeForever],
           Serving PORT)
      end
  end.

(** Lines 114 to 116: [KeyboardInterrupt] while serving. *)
Definition interrupt (st : status) : list event * status :=
  match st with
  | Serving _ =>
      ([Print (nl ++ nl ++ check_mark ++ lit " Server stopped"); Shutdown],
       Exited 0%Z)
  | _ => ([], st)
  end.

End Main.

End Script.

(** ** Sample inputs *)

Module Sample.

(** A clock that gives the same reading twice (its resolution is coarser
    than the time between the two reads). *)
Definition stalled_clock (i : nat) : datetime :=
  mkDatetime 2024 3 9 7 5 0 1200.

(** A clock set back between two reads: local time at the end of daylight
    saving time, 01:59:59.5 and then 01:00:00.25. *)
Definition set_back_clock (i : nat) : datetime :=
  match i with
  | O => mkDatetime 2024 11 3 1 59 59 500000
  | S _ => mkDatetime 2024 11 3 1 0 0 250000
  end.

(** A clock that advances by a second a reading. *)
Definition ticking_clock (i : nat) : datetime :=
  mkDatetime 2024 3 9 7 5 (N.of_nat i mod 60) 0.

Definition get_root : request := mkRequest "/" "GET".
Definition get_query : request := mkRequest "/abc?x=1" "GET".
Definition post_root : request := mkRequest "/" "POST".

(** The format and arguments of an access log record: the request line in
    double quotes, the status code and the size. *)
Definition record_format : pystr := dq ++ lit "%s" ++ dq ++ lit " %s %s".
Definition record_args : list pyval :=
  [VStr (lit "GET / HTTP/1.1"); VStr (lit "200"); VStr (lit "-")].

(** A request for [/] from 203.0.113.7, port 54321. *)
Definition conn_get : Served.connection :=
  Served.mkConnection ("203.0.113.7"%string, 54321%Z) "GET / HTTP/1.1"
    get_root.

(** A bind that always succeeds. *)
Definition bind_ok (port : Z) : option exn := None.

(** A bind that fails on port 5173 (the port is in use) and succeeds on
    the others. *)
Definition bind_5173_in_use (port : Z) : option exn :=
  if (port =? 5173)%Z then Some OSError else None.

End Sample.

(** * Properties *)

(** ** Text *)

Section TextFacts.

Lemma lit_app (a b : string) : lit (a ++ b) = lit a ++ lit b.
Proof.
  unfold lit. induction a as [|c a IH]; simpl; [reflexivity|].
  now rewrite IH.
Qed.

Lemma N_of_ascii_bound (c : ascii) : N_of_ascii c < 256.
Proof.
  destruct c as [[] [] [] [] [] [] [] []]; vm_compute; reflexivity.
Qed.

Lemma lit_below_256 (s : string) : Forall (fun c => c < 256) (lit s).
Proof.
  unfold lit. induction s as [|c s IH]; simpl; constructor; auto.
  apply N_of_ascii_bound.
Qed.

Lemma below_256_encodable (s : pystr) :
  Forall (fun c => c < 256) s -> Forall encodable s.
Proof.
  apply Forall_impl. intros c H. left. lia.
Qed.

Lemma lit_encodable (s : string) : Forall encodable (lit s).
Proof. apply below_256_encodable, lit_below_256. Qed.

Lemma utf8_char_total (c : N) : encodable c -> exists b, utf8_char c = Some b.
Proof.
  intros H. unfold utf8_char, is_surrogate.
  destruct (c <? 0x80) eqn:E1; [eauto|].
  destruct (c <? 0x800) eqn:E2; [eauto|].
  destruct (c <? 0x10000) eqn:E3.
  - destruct (0xD800 <=? c) eqn:E4, (c <=? 0xDFFF) eqn:E5; simpl; eauto.
    apply N.leb_le in E4, E5. destruct H as [H|[H _]]; lia.
  - destruct (c <? 0x110000) eqn:E4; [eauto|].
    apply N.ltb_ge in E3, E4. destruct H as [H|[_ H]]; lia.
Qed.

Lemma encode_app (a b : pystr) :
  encode (a ++ b) =
  match encode a, encode b with
  | Some x, Some y => Some (x ++ y)
  | _, _ => None
  end.
Proof.
  induction a as [|c a IH]; simpl.
  - destruct (encode b); reflexivity.
  - rewrite IH. destruct (utf8_char c) as [u|]; [|reflexivity].
    destruct (encode a) as [x|]; [|reflexivity].
    destruct (encode b) as [y|]; [|reflexivity].
    now rewrite app_assoc.
Qed.

Lemma encode_total (s : pystr) :
  Forall encodable s -> exists b, encode s = Some b.
Proof.
  induction 1 as [|c s Hc _ [b IH]]; simpl; [eauto|].
  destruct (utf8_char_total c Hc) as [u ->]. rewrite IH. eauto.
Qed.

Lemma encode_ascii (s : pystr) : ascii_only s -> encode s = Some s.
Proof.
  induction 1 as [|c s Hc _ IH]; simpl; [reflexivity|].
  unfold utf8_char. apply N.ltb_lt in Hc.
  change (0x80) with 128. now rewrite Hc, IH.
Qed.

(** Occurrences in a concatenation. *)

Lemma Infix_here {A} (x post : list A) : Infix x (x ++ post).
Proof. exists [], post. reflexivity. Qed.

Lemma Infix_skip {A} (a x s : list A) : Infix x s -> Infix x (a ++ s).
Proof.
  intros (pre & post & ->). exists (a ++ pre), post. now rewrite app_assoc.
Qed.

Lemma Prefix_Infix {A} (x s : list A) : (exists p, s = x ++ p) -> Infix x s.
Proof. intros [p ->]. apply Infix_here. Qed.

Lemma starts_with_app (x post : list N) : starts_with x (x ++ post) = true.
Proof.
  induction x as [|a x IH]; simpl; [reflexivity|].
  now rewrite N.eqb_refl, IH.
Qed.

(** The search finds every occurrence. *)
Lemma Infix_occurs (x s : list N) : Infix x s -> occurs x s = true.
Proof.
  assert (Here : forall t, starts_with x t = true -> occurs x t = true).
  { intros [|b t] H; simpl; rewrite H; reflexivity. }
  intros (pre & post & ->). induction pre as [|a pre IH].
  - change ([] ++ x ++ post) with (x ++ post). apply Here, starts_with_app.
  - simpl. rewrite IH. apply orb_true_r.
Qed.

Lemma starts_with_prefix (x s : list N) :
  starts_with x s = true -> exists post, s = x ++ post.
Proof.
  revert s. induction x as [|a x IH]; intros s H; [now exists s|].
  destruct s as [|b s]; [discriminate|]. simpl in H.
  apply andb_true_iff in H. destruct H as [H1 H2].
  apply N.eqb_eq in H1. subst b.
  destruct (IH s H2) as [post ->]. now exists post.
Qed.

(** What the search finds is an occurrence. *)
Lemma occurs_Infix (x s : list N) : occurs x s = true -> Infix x s.
Proof.
  induction s as [|b s IH]; intros H.
  - simpl in H. rewrite orb_false_r in H.
    apply Prefix_Infix, starts_with_prefix, H.
  - cbn [occurs] in H. apply orb_true_iff in H. destruct H as [H|H].
    + apply Prefix_Infix, starts_with_prefix, H.
    + apply (Infix_skip [b]). now apply IH.
Qed.

(** What [encode] does to an occurrence. *)
Lemma encode_Infix (x s : pystr) (data : pybytes) :
  encode s = Some data -> Infix x s ->
  exists bx, encode x = Some bx /\ Infix bx data.
Proof.
  intros E (pre & post & ->).
  rewrite !encode_app in E.
  destruct (encode pre) as [bp|]; [|discriminate].
  destruct (encode x) as [bx|]; [|discriminate].
  destruct (encode post) as [bq|]; [|discriminate].
  injection E as <-. exists bx. split; [reflexivity|]. now exists bp, bq.
Qed.

End TextFacts.

(** ** UTF-8 as arithmetic *)

Section Utf8Facts.

Lemma lor_high (k j a : N) : a < 2 ^ j -> N.lor (k * 2 ^ j) a = k * 2 ^ j + a.
Proof.
  intros H.
  assert (L : N.land (k * 2 ^ j) a = 0).
  { apply N.bits_inj. intros i. rewrite N.land_spec, N.bits_0.
    destruct (N.lt_ge_cases i j) as [Hi|Hi].
    - now rewrite N.mul_pow2_bits_low.
    - rewrite <- (N.mod_small a (2 ^ j)) by assumption.
      rewrite N.mod_pow2_bits_high by assumption. apply andb_false_r. }
  rewrite <- N.lxor_lor by exact L. symmetry. now apply N.add_nocarry_lxor.
Qed.

(** A continuation byte: [10xxxxxx] with the six low bits of [a]. *)
Lemma continuation_byte (a : N) : N.lor 0x80 (N.land a 0x3F) = 128 + a mod 64.
Proof.
  change 0x3F with (N.ones 6). rewrite N.land_ones.
  change 0x80 with (2 * 2 ^ 6). rewrite lor_high; [reflexivity|].
  apply N.mod_lt. discriminate.
Qed.

Lemma lead_byte (k j c s : N) :
  c / 2 ^ s < 2 ^ j ->
  N.lor (k * 2 ^ j) (N.shiftr c s) = k * 2 ^ j + c / 2 ^ s.
Proof. intros H. rewrite N.shiftr_div_pow2. now apply lor_high. Qed.

(** The bytes of a code point, as sums. *)
Lemma utf8_char_cases (c : N) (u : pybytes) :
  utf8_char c = Some u ->
  (c < 128 /\ u = [c]) \/
  (exists q r0, c = 64 * q + r0 /\ 2 <= q < 32 /\ r0 < 64 /\
                u = [192 + q; 128 + r0]) \/
  (exists q r1 r0, c = 4096 * q + 64 * r1 + r0 /\
                   q < 16 /\ r1 < 64 /\ r0 < 64 /\ 2048 <= c /\
                   (c < 0xD800 \/ 0xDFFF < c) /\
                   u = [224 + q; 128 + r1; 128 + r0]) \/
  (exists q r2 r1 r0, c = 262144 * q + 4096 * r2 + 64 * r1 + r0 /\
                      q < 8 /\ r2 < 64 /\ r1 < 64 /\ r0 < 64 /\
                      65536 <= c < 1114112 /\
                      u = [240 + q; 128 + r2; 128 + r1; 128 + r0]).
Proof.
  unfold utf8_char, is_surrogate. rewrite !N.shiftr_div_pow2.
  rewrite !continuation_byte.
  change (2 ^ 6) with 64. change (2 ^ 12) with 4096.
  change (2 ^ 18) with 262144.
  pose proof (N.div_mod c 64 ltac:(discriminate)) as D0.
  pose proof (N.mod_lt c 64 ltac:(discriminate)) as M0.
  pose proof (N.div_mod (c / 64) 64 ltac:(discriminate)) as D1.
  pose proof (N.mod_lt (c / 64) 64 ltac:(discriminate)) as M1.
  pose proof (N.div_mod (c / 4096) 64 ltac:(discriminate)) as D2.
  pose proof (N.mod_lt (c / 4096) 64 ltac:(discriminate)) as M2.
  assert (Q1 : c / 64 / 64 = c / 4096) by (now rewrite N.Div0.div_div).
  assert (Q2 : c / 4096 / 64 = c / 262144) by (now rewrite N.Div0.div_div).
  rewrite Q1 in D1. rewrite Q2 in D2.
  remember (c / 64) as q6. remember (c mod 64) as r0.
  remember (c / 4096) as q12. remember (q6 mod 64) as r1.
  remember (c / 262144) as q18. remember (q12 mod 64) as r2.
  clear Heqq6 Heqr0 Heqq12 Heqr1 Heqq18 Heqr2 Q1 Q2.
  destruct (c <? 128) eqn:E1.
  { apply N.ltb_lt in E1. intros H. injection H as <-. left. now split. }
  apply N.ltb_ge in E1.
  destruct (c <? 2048) eqn:E2.
  { apply N.ltb_lt in E2.
    change 192 with (3 * 2 ^ 6).
    rewrite lor_high by (change (2 ^ 6) with 64; lia).
    change (3 * 2 ^ 6) with 192.
    intros H. injection H as <-. right. left.
    exists q6, r0. repeat split; lia. }
  apply N.ltb_ge in E2.
  destruct (c <? 65536) eqn:E3.
  { apply N.ltb_lt in E3.
    destruct ((55296 <=? c) && (c <=? 57343))%bool eqn:S; [discriminate|].
    change 224 with (14 * 2 ^ 4).
    rewrite lor_high by (change (2 ^ 4) with 16; lia).
    change (14 * 2 ^ 4) with 224.
    intros H. injection H as <-. right. right. left.
    exists q12, r1, r0.
    split; [lia|]. split; [lia|]. split; [lia|]. split; [lia|].
    split; [lia|]. split; [|reflexivity].
    apply andb_false_iff in S. destruct S as [S|S].
    - apply N.leb_gt in S. left. exact S.
    - apply N.leb_gt in S. right. exact S. }
  apply N.ltb_ge in E3.
  destruct (c <? 1114112) eqn:E4; [|discriminate].
  apply N.ltb_lt in E4.
  change 240 with (30 * 2 ^ 3).
  rewrite lor_high by (change (2 ^ 3) with 8; lia).
  change (30 * 2 ^ 3) with 240.
  intros H. injection H as <-. right. right. right.
  exists q18, r2, r1, r0.
  split; [lia|]. split; [lia|]. split; [lia|]. split; [lia|].
  split; [lia|]. split; [lia|]. reflexivity.
Qed.

Lemma utf8_char_octets (c : N) (u : pybytes) :
  utf8_char c = Some u -> Forall (fun b => b < 256) u.
Proof.
  intros H. apply utf8_char_cases in H.
  destruct H as [[H ->]|[(q & r0 & _ & Hq & H0 & ->)|
                 [(q & r1 & r0 & _ & Hq & H1 & H0 & _ & _ & ->)|
                  (q & r2 & r1 & r0 & _ & Hq & H2 & H1 & H0 & _ & ->)]]];
    repeat constructor; lia.
Qed.

Lemma encode_octets (s : pystr) (data : pybytes) :
  encode s = Some data -> Forall (fun b => b < 256) data.
Proof.
  revert data. induction s as [|c s IH]; intros data H; cbn [encode] in H.
  - injection H as <-. constructor.
  - destruct (utf8_char c) as [u|] eqn:U; [|discriminate].
    destruct (encode s) as [bs|]; [|discriminate].
    injection H as <-. apply Forall_app. split.
    + now apply utf8_char_octets with c.
    + now apply IH.
Qed.

Lemma cons_inj {A} (a b : A) (l m : list A) :
  a :: l = b :: m -> a = b /\ l = m.
Proof. intros H. now injection H. Qed.

(** No encoding of a code point starts the encoding of another. *)
Lemma utf8_char_prefix_free (c1 c2 : N) (u1 u2 t1 t2 : pybytes) :
  utf8_char c1 = Some u1 -> utf8_char c2 = Some u2 ->
  u1 ++ t1 = u2 ++ t2 -> c1 = c2 /\ t1 = t2.
Proof.
  intros H1 H2 E.
  apply utf8_char_cases in H1. apply utf8_char_cases in H2.
  destruct H1 as [[A1 ->]|[(q & r0 & C1 & Hq & H0 & ->)|
                  [(q & r1 & r0 & C1 & Hq & H1 & H0 & L1 & _ & ->)|
                   (q & r2 & r1 & r0 & C1 & Hq & R2 & H1 & H0 & L1 & ->)]]];
  destruct H2 as [[A2 ->]|[(q' & s0 & C2 & Hq' & K0 & ->)|
                  [(q' & s1 & s0 & C2 & Hq' & K1 & K0 & L2 & _ & ->)|
                   (q' & s2 & s1 & s0 & C2 & Hq' & S2 & K1 & K0 & L2 & ->)]]];
  cbn [List.app] in E;
    repeat match type of E with
           | _ :: _ = _ :: _ =>
               apply cons_inj in E; let H := fresh "B" in destruct E as [H E]
           end;
    first [ exfalso; lia | split; [lia|exact E] ].
Qed.

Lemma utf8_char_nonempty (c : N) (u : pybytes) : utf8_char c = Some u -> u <> [].
Proof.
  intros H. apply utf8_char_cases in H.
  destruct H as [[_ ->]|[(q & r0 & _ & _ & _ & ->)|
                 [(q & r1 & r0 & _ & _ & _ & _ & _ & _ & ->)|
                  (q & r2 & r1 & r0 & _ & _ & _ & _ & _ & _ & ->)]]];
    discriminate.
Qed.

(** [encode] keeps texts apart. *)
Lemma encode_inj (s1 s2 : pystr) (data : pybytes) :
  encode s1 = Some data -> encode s2 = Some data -> s1 = s2.
Proof.
  revert s2 data. induction s1 as [|c1 s1 IH]; intros [|c2 s2] data H1 H2;
    cbn [encode] in H1, H2.
  - reflexivity.
  - injection H1 as <-.
    destruct (utf8_char c2) as [u|] eqn:U; [|discriminate].
    destruct (encode s2); [|discriminate]. injection H2 as H2.
    apply utf8_char_nonempty in U. destruct u; [now elim U|discriminate].
  - injection H2 as <-.
    destruct (utf8_char c1) as [u|] eqn:U; [|discriminate].
    destruct (encode s1); [|discriminate]. injection H1 as H1.
    apply utf8_char_nonempty in U. destruct u; [now elim U|discriminate].
  - destruct (utf8_char c1) as [u1|] eqn:U1; [|discriminate].
    destruct (encode s1) as [b1|] eqn:B1; [|discriminate].
    destruct (utf8_char c2) as [u2|] eqn:U2; [|discriminate].
    destruct (encode s2) as [b2|] eqn:B2; [|discriminate].
    injection H1 as <-. injection H2 as H2. symmetry in H2.
    destruct (utf8_char_prefix_free _ _ _ _ _ _ U1 U2 H2) as [-> ->].
    f_equal. now apply (IH s2 b2).
Qed.

Lemma utf8_char_latin1 (c : N) : c < 256 -> utf8_char c = Some (latin1_bytes c).
Proof.
  intros H. unfold utf8_char, latin1_bytes. change 0x80 with 128 at 1.
  destruct (c <? 128) eqn:E; [reflexivity|].
  replace (c <? 0x800) with true by (symmetry; apply N.ltb_lt; lia).
  rewrite continuation_byte. rewrite N.shiftr_div_pow2.
  change 0xC0 with (3 * 2 ^ 6).
  rewrite lor_high; [reflexivity|].
  apply N.Div0.div_lt_upper_bound. change (2 ^ 6 * 2 ^ 6) with 4096. lia.
Qed.

Lemma encode_lit (s : string) : encode (lit s) = Some (utf8_latin1 s).
Proof.
  unfold utf8_latin1. pose proof (lit_below_256 s) as B.
  induction B as [|c l Hc _ IH]; [reflexivity|].
  cbn [encode flat_map]. rewrite (utf8_char_latin1 c Hc), IH. reflexivity.
Qed.

Lemma latin1_bytes_length (c : N) : (1 <= List.length (latin1_bytes c))%nat.
Proof. unfold latin1_bytes. destruct (c <? 128); cbn [List.length]; lia. Qed.

Lemma flat_latin1_length (l : list N) :
  (List.length l <= List.length (flat_map latin1_bytes l))%nat.
Proof.
  induction l as [|c l IH]; [apply Nat.le_refl|].
  cbn [flat_map List.length]. rewrite length_app.
  pose proof (latin1_bytes_length c). lia.
Qed.

(** The UTF-8 bytes of a text are the text itself exactly when it is
    ASCII. *)
Lemma utf8_latin1_ascii (s : string) :
  utf8_latin1 s = lit s <-> ascii_only (lit s).
Proof.
  unfold utf8_latin1, ascii_only. induction (lit s) as [|c l IH].
  - split; [constructor|reflexivity].
  - cbn [flat_map]. unfold latin1_bytes at 1. destruct (c <? 128) eqn:E.
    + cbn [List.app]. split.
      * intros H. injection H as H. constructor; [now apply N.ltb_lt|].
        now apply IH.
      * intros H. inversion H; subst. f_equal. now apply IH.
    + split.
      * intros H. apply (f_equal (@List.length N)) in H.
        cbn [List.app List.length] in H.
        pose proof (flat_latin1_length l) as H0. exfalso.
        change (@List.length octet) with (@List.length N) in H0. lia.
      * intros H. inversion H; subst. apply N.ltb_ge in E. lia.
Qed.

End Utf8Facts.

(** ** The order of texts and of timestamps *)

Section OrderFacts.

Lemma str_lt_irrefl (a : pystr) : str_lt a a = false.
Proof.
  induction a as [|x a IH]; simpl; [reflexivity|].
  now rewrite N.ltb_irrefl, N.eqb_refl, IH.
Qed.

Lemma str_lt_neq (a b : pystr) : str_lt a b = true -> a <> b.
Proof. intros H ->. rewrite str_lt_irrefl in H. discriminate. Qed.

Lemma str_lt_app_same (p a b : pystr) : str_lt (p ++ a) (p ++ b) = str_lt a b.
Proof.
  induction p as [|x p IH]; simpl; [reflexivity|].
  now rewrite N.ltb_irrefl, N.eqb_refl, IH.
Qed.

Lemma str_lt_app_lt (a b x y : pystr) :
  List.length a = List.length b -> str_lt a b = true ->
  str_lt (a ++ x) (b ++ y) = true.
Proof.
  revert b. induction a as [|c a IH]; intros [|d b] L H; simpl in *;
    try discriminate.
  apply orb_true_iff in H. apply orb_true_iff.
  destruct H as [H|H]; [now left|right].
  apply andb_true_iff in H. destruct H as [H1 H2].
  rewrite H1. simpl. apply IH; [now injection L|assumption].
Qed.

Lemma str_lt_le (a b : pystr) : str_lt a b = true -> str_le a b = true.
Proof.
  unfold str_le. revert b. induction a as [|c a IH]; intros [|d b] H;
    simpl in *; try discriminate; try reflexivity.
  apply orb_true_iff in H. apply negb_true_iff, orb_false_iff.
  destruct H as [H|H].
  - apply N.ltb_lt in H. split; [apply N.ltb_ge; lia|].
    replace (d =? c) with false; [reflexivity|].
    symmetry. apply N.eqb_neq. lia.
  - apply andb_true_iff in H. destruct H as [H1 H2].
    apply N.eqb_eq in H1. subst d. rewrite N.ltb_irrefl, N.eqb_refl. simpl.
    split; [reflexivity|]. apply negb_true_iff. now apply IH.
Qed.

Lemma digits_length (w : nat) (n : N) : List.length (digits w n) = w.
Proof.
  revert n. induction w as [|w IH]; intros n; simpl; [reflexivity|].
  rewrite length_app, IH. simpl. lia.
Qed.

Lemma digits_lt (w : nat) (n m : N) :
  n < m -> m < 10 ^ N.of_nat w ->
  str_lt (digits w n) (digits w m) = true.
Proof.
  revert n m. induction w as [|w IH]; intros n m Hnm Hm.
  - simpl in Hm. lia.
  - rewrite Nnat.Nat2N.inj_succ, N.pow_succ_r' in Hm. cbn [digits].
    destruct (N.lt_ge_cases (n / 10) (m / 10)) as [Hq|Hq].
    + apply str_lt_app_lt; [now rewrite !digits_length|].
      apply IH; [assumption|].
      apply N.Div0.div_lt_upper_bound. exact Hm.
    + assert (Heq : n / 10 = m / 10).
      { apply N.le_antisymm; [|assumption]. apply N.Div0.div_le_mono. lia. }
      rewrite Heq, str_lt_app_same. cbn [str_lt].
      pose proof (N.div_mod n 10 ltac:(lia)) as Hn10.
      pose proof (N.div_mod m 10 ltac:(lia)) as Hm10.
      rewrite Heq in Hn10.
      remember (m / 10) as q. remember (n mod 10) as rn.
      remember (m mod 10) as rm.
      apply orb_true_iff. left. apply N.ltb_lt. lia.
Qed.

Ltac pow_bound :=
  match goal with
  | |- _ < 10 ^ N.of_nat ?w =>
      let v := eval vm_compute in (10 ^ N.of_nat w) in
      change (10 ^ N.of_nat w) with v; lia
  end.

(** One field of a timestamp and what follows it. *)
Lemma field_step (w : nat) (x y : N) (sep r1 r2 : pystr) :
  x < 10 ^ N.of_nat w -> y < 10 ^ N.of_nat w ->
  (x <? y) || ((x =? y) && str_lt r1 r2) = true ->
  str_lt (zpad w x ++ sep ++ r1) (zpad w y ++ sep ++ r2) = true.
Proof.
  intros Hx Hy H. unfold zpad.
  apply N.ltb_lt in Hx, Hy. rewrite Hx, Hy. apply N.ltb_lt in Hy.
  apply orb_true_iff in H. destruct H as [H|H].
  - apply N.ltb_lt in H. apply str_lt_app_lt.
    + now rewrite !digits_length.
    + now apply digits_lt.
  - apply andb_true_iff in H. destruct H as [H1 H2].
    apply N.eqb_eq in H1. subst y. now rewrite !str_lt_app_same.
Qed.

(** The fraction of a second at the end of a timestamp. *)
Lemma fraction_step (x y : N) :
  y < 10 ^ 6 ->
  (x <? y) || ((x =? y) && false) = true ->
  str_lt (if x =? 0 then [] else lit "." ++ zpad 6 x)
         (if y =? 0 then [] else lit "." ++ zpad 6 y) = true.
Proof.
  intros Hy H. rewrite andb_false_r, orb_false_r in H. apply N.ltb_lt in H.
  replace (y =? 0) with false by (symmetry; apply N.eqb_neq; lia).
  destruct (x =? 0) eqn:E; [reflexivity|].
  rewrite str_lt_app_same. unfold zpad. change (N.of_nat 6) with 6.
  replace (x <? 10 ^ 6) with true by (symmetry; apply N.ltb_lt; lia).
  replace (y <? 10 ^ 6) with true by (symmetry; apply N.ltb_lt; lia).
  now apply digits_lt.
Qed.

(** [isoformat] keeps the order of the values it prints. *)
Lemma isoformat_lt (a b : datetime) :
  in_range a -> in_range b -> dt_lt a b = true ->
  str_lt (isoformat a) (isoformat b) = true.
Proof.
  intros (Ha1 & Ha2 & Ha3 & Ha4 & Ha5 & Ha6 & Ha7)
         (Hb1 & Hb2 & Hb3 & Hb4 & Hb5 & Hb6 & Hb7) H.
  unfold dt_lt, fields in H. simpl in H. unfold isoformat.
  apply field_step; [pow_bound|pow_bound|].
  destruct (year a <? year b); [reflexivity|].
  destruct (year a =? year b); [simpl in H|discriminate].
  apply field_step; [pow_bound|pow_bound|].
  destruct (month a <? month b); [reflexivity|].
  destruct (month a =? month b); [simpl in H|discriminate].
  apply field_step; [pow_bound|pow_bound|].
  destruct (day a <? day b); [reflexivity|].
  destruct (day a =? day b); [simpl in H|discriminate].
  apply field_step; [pow_bound|pow_bound|].
  destruct (hour a <? hour b); [reflexivity|].
  destruct (hour a =? hour b); [simpl in H|discriminate].
  apply field_step; [pow_bound|pow_bound|].
  destruct (minute a <? minute b); [reflexivity|].
  destruct (minute a =? minute b); [simpl in H|discriminate].
  apply (field_step 2 (second a) (second b) []); [pow_bound|pow_bound|].
  destruct (second a <? second b); [reflexivity|].
  destruct (second a =? second b); [simpl in H|discriminate].
  apply fraction_step; [change (10 ^ 6) with 1000000; lia|assumption].
Qed.

End OrderFacts.

(** ** Numerals and timestamps are ASCII *)

Section AsciiFacts.

Lemma ascii_only_app (a b : pystr) :
  ascii_only a -> ascii_only b -> ascii_only (a ++ b).
Proof. intros Ha Hb. apply Forall_app. now split. Qed.

Lemma stamp_chars_app (a b : pystr) :
  stamp_chars a -> stamp_chars b -> stamp_chars (a ++ b).
Proof. intros Ha Hb. apply Forall_app. now split. Qed.

Lemma stamp_chars_ascii (s : pystr) : stamp_chars s -> ascii_only s.
Proof. apply Forall_impl. intros c [_ H]. lia. Qed.

Lemma stamp_chars_no_nl (s : pystr) :
  stamp_chars s -> count_occ N.eq_dec s 10 = O.
Proof.
  induction 1 as [|c s [Hc _] _ IH]; [reflexivity|].
  rewrite count_occ_cons_neq; [exact IH|]. lia.
Qed.

Ltac stamp_lit := unfold stamp_chars; repeat constructor; discriminate.

Lemma uint_chars (u : uint) : stamp_chars (lit (NilEmpty.string_of_uint u)).
Proof.
  unfold stamp_chars.
  induction u; cbn [NilEmpty.string_of_uint lit list_ascii_of_string map];
    constructor; try assumption; split; discriminate.
Qed.

Lemma decimal_chars (n : N) : stamp_chars (decimal n).
Proof.
  unfold decimal, NilZero.string_of_uint.
  destruct (N.to_uint n) eqn:E; try (rewrite <- E; apply uint_chars).
  stamp_lit.
Qed.

Lemma str_of_int_chars (n : Z) : stamp_chars (str_of_int n).
Proof.
  unfold str_of_int, NilZero.string_of_int, NilZero.string_of_uint.
  destruct (Z.to_int n) as [u|u].
  - destruct u; try apply uint_chars. stamp_lit.
  - cbn [lit list_ascii_of_string map].
    constructor; [split; discriminate|].
    destruct u; try apply uint_chars. stamp_lit.
Qed.

Lemma str_of_int_ascii (n : Z) : ascii_only (str_of_int n).
Proof. apply stamp_chars_ascii, str_of_int_chars. Qed.

Lemma digits_chars (w : nat) (n : N) : stamp_chars (digits w n).
Proof.
  unfold stamp_chars.
  revert n. induction w as [|w IH]; intros n; cbn [digits]; [constructor|].
  apply Forall_app. split; [apply IH|].
  constructor; [|constructor].
  pose proof (N.mod_lt n 10 ltac:(lia)) as H.
  cbv beta. remember (n mod 10) as r. clear Heqr. lia.
Qed.

Lemma zpad_chars (w : nat) (n : N) : stamp_chars (zpad w n).
Proof.
  unfold zpad. destruct (n <? 10 ^ N.of_nat w).
  - apply digits_chars.
  - apply decimal_chars.
Qed.

Lemma isoformat_chars (d : datetime) : stamp_chars (isoformat d).
Proof.
  unfold isoformat.
  repeat (apply stamp_chars_app; [first [apply zpad_chars | stamp_lit]|]).
  destruct (microsecond d =? 0); [constructor|].
  apply stamp_chars_app; [stamp_lit|apply zpad_chars].
Qed.

Lemma isoformat_ascii (d : datetime) : ascii_only (isoformat d).
Proof. apply stamp_chars_ascii, isoformat_chars. Qed.

Lemma ascii_only_encodable (s : pystr) : ascii_only s -> Forall encodable s.
Proof. apply Forall_impl. intros c H. left. lia. Qed.

(** [str(n)] reads back as [n]. *)
Lemma str_of_int_reads_back (n : Z) :
  exists s, str_of_int n = lit s /\ read_decimal s = Some n.
Proof.
  exists (NilZero.string_of_int (Z.to_int n)). split; [reflexivity|].
  unfold read_decimal. rewrite NilZero.isi.
  - simpl. now rewrite DecimalZ.of_to.
  - destruct n; simpl; try discriminate.
    intros H. injection H. apply DecimalPos.Unsigned.to_uint_nonnil.
  - destruct n; simpl; try discriminate.
    intros H. injection H. apply DecimalPos.Unsigned.to_uint_nonnil.
Qed.

End AsciiFacts.

(** ** Timestamps read back, and keep the order of the readings *)

Section StampOrderFacts.

Lemma read_digits_snoc (w : nat) (acc : N) (s : pystr) :
  read_digits (S w) acc s =
  match read_digits w acc s with
  | Some (a, s') => read_digits 1 a s'
  | None => None
  end.
Proof.
  revert acc s. induction w as [|w IH]; intros acc s; [reflexivity|].
  cbn [read_digits]. destruct s as [|c s]; [reflexivity|].
  destruct (digit_of c) as [d|]; [|reflexivity].
  rewrite <- IH. reflexivity.
Qed.

Lemma digit_of_digit (r : N) : r < 10 -> digit_of (48 + r) = Some r.
Proof.
  intros H. unfold digit_of.
  replace (48 <=? 48 + r) with true by (symmetry; apply N.leb_le; lia).
  replace (48 + r <=? 57) with true by (symmetry; apply N.leb_le; lia).
  cbn [andb]. f_equal. lia.
Qed.

Lemma read_digits_digits (w : nat) (acc n : N) (rest : pystr) :
  n < 10 ^ N.of_nat w ->
  read_digits w acc (digits w n ++ rest) = Some (acc * 10 ^ N.of_nat w + n, rest).
Proof.
  revert acc n rest. induction w as [|w IH]; intros acc n rest H.
  - cbn in H. cbn [read_digits digits List.app]. f_equal. f_equal.
    change (N.of_nat 0) with 0. rewrite N.pow_0_r. lia.
  - rewrite Nnat.Nat2N.inj_succ, N.pow_succ_r' in *.
    rewrite read_digits_snoc. cbn [digits]. rewrite <- app_assoc.
    rewrite IH by (apply N.Div0.div_lt_upper_bound; exact H).
    cbn [List.app read_digits].
    pose proof (N.mod_lt n 10 ltac:(discriminate)) as Hr.
    rewrite digit_of_digit by exact Hr.
    pose proof (N.div_mod n 10 ltac:(discriminate)) as D.
    f_equal. f_equal.
    remember (n / 10) as q. remember (n mod 10) as r.
    remember (10 ^ N.of_nat w) as P. clear HeqP Heqq Heqr IH. nia.
Qed.

Lemma zpad_digits (w : nat) (n : N) :
  n < 10 ^ N.of_nat w -> zpad w n = digits w n.
Proof. intros H. unfold zpad. apply N.ltb_lt in H. now rewrite H. Qed.

Lemma field_sep (w : nat) (n c : N) (rest : pystr) :
  n < 10 ^ N.of_nat w ->
  field w (Some c) (zpad w n ++ c :: rest) = Some (n, rest).
Proof.
  intros H. unfold field. rewrite zpad_digits by exact H.
  rewrite read_digits_digits by exact H. cbn [expect].
  rewrite N.eqb_refl. cbn [option_map]. now rewrite N.mul_0_l.
Qed.

Lemma field_end (w : nat) (n : N) (rest : pystr) :
  n < 10 ^ N.of_nat w ->
  field w None (zpad w n ++ rest) = Some (n, rest).
Proof.
  intros H. unfold field. rewrite zpad_digits by exact H.
  rewrite read_digits_digits by exact H. now rewrite N.mul_0_l.
Qed.

Ltac pow_bound :=
  match goal with
  | |- _ < 10 ^ N.of_nat ?w =>
      let v := eval vm_compute in (10 ^ N.of_nat w) in
      change (10 ^ N.of_nat w) with v; lia
  end.

(** Reading a timestamp back gives the reading it was written from. *)
Lemma fromisoformat_isoformat (d : datetime) :
  in_range d -> fromisoformat (isoformat d) = Some d.
Proof.
  intros (H1 & H2 & H3 & H4 & H5 & H6 & H7).
  destruct d as [y mo dd h mi sec us]. cbn [year month day hour minute second
    microsecond] in *.
  unfold fromisoformat, isoformat.
  cbn [year month day hour minute second microsecond].
  change (lit "-") with [45]. change (lit "T") with [84].
  change (lit ":") with [58]. change (lit ".") with [46].
  cbn [List.app].
  rewrite (field_sep 4) by pow_bound.
  rewrite (field_sep 2) by pow_bound.
  rewrite (field_sep 2) by pow_bound.
  rewrite (field_sep 2) by pow_bound.
  rewrite (field_sep 2) by pow_bound.
  rewrite (field_end 2) by pow_bound.
  destruct (us =? 0) eqn:E.
  - apply N.eqb_eq in E. now subst us.
  - cbn [expect]. rewrite N.eqb_refl.
    rewrite <- (app_nil_r (zpad 6 us)).
    rewrite (field_end 6) by pow_bound. reflexivity.
Qed.

Lemma str_lt_total (a b : list N) :
  List.length a = List.length b ->
  str_lt a b = true \/ a = b \/ str_lt b a = true.
Proof.
  revert b. induction a as [|x a IH]; intros [|y b] L; try discriminate.
  - right. now left.
  - injection L as L. cbn [str_lt].
    destruct (N.lt_trichotomy x y) as [H|[H|H]].
    + left. apply orb_true_iff. left. now apply N.ltb_lt.
    + subst y. rewrite N.ltb_irrefl, N.eqb_refl. cbn [orb andb].
      destruct (IH b L) as [H|[H|H]].
      * now left.
      * right. left. now f_equal.
      * right. now right.
    + right. right. apply orb_true_iff. left. now apply N.ltb_lt.
Qed.

Lemma dt_trichotomy (a b : datetime) :
  dt_lt a b = true \/ a = b \/ dt_lt b a = true.
Proof.
  unfold dt_lt. destruct (str_lt_total (fields a) (fields b) eq_refl)
    as [H|[H|H]].
  - now left.
  - right. left. destruct a, b. unfold fields in H. cbn in H.
    now injection H as -> -> -> -> -> -> ->.
  - right. now right.
Qed.

Lemma str_lt_asym (a b : pystr) : str_lt a b = true -> str_lt b a = false.
Proof.
  intros H. apply str_lt_le in H. unfold str_le in H.
  now apply negb_true_iff in H.
Qed.

Lemma isoformat_order (a b : datetime) :
  in_range a -> in_range b ->
  (isoformat a = isoformat b <-> a = b) /\
  (str_lt (isoformat a) (isoformat b) = true <-> dt_lt a b = true) /\
  (str_le (isoformat a) (isoformat b) = true <-> dt_lt b a = false).
Proof.
  intros Ra Rb.
  assert (Irr : forall x, dt_lt x x = false)
    by (intros x; apply str_lt_irrefl).
  destruct (dt_trichotomy a b) as [H|[H|H]].
  - pose proof (isoformat_lt a b Ra Rb H) as L.
    pose proof (str_lt_asym _ _ L) as L'.
    pose proof (str_lt_asym _ _ H : dt_lt b a = false) as H'.
    split; [|split].
    + split; intros E.
      * rewrite E, str_lt_irrefl in L. discriminate.
      * subst b. rewrite Irr in H. discriminate.
    + now split.
    + unfold str_le. rewrite L'. now split.
  - subst b. split; [|split].
    + now split.
    + rewrite str_lt_irrefl, Irr. now split.
    + unfold str_le. rewrite str_lt_irrefl, Irr. now split.
  - pose proof (isoformat_lt b a Rb Ra H) as L.
    pose proof (str_lt_asym _ _ L) as L'.
    pose proof (str_lt_asym _ _ H : dt_lt a b = false) as H'.
    split; [|split].
    + split; intros E.
      * rewrite E, str_lt_irrefl in L'. rewrite E, str_lt_irrefl in L.
        discriminate.
      * subst b. rewrite Irr in H. discriminate.
    + rewrite L', H'. now split.
    + unfold str_le. rewrite L, H. now split.
Qed.

End StampOrderFacts.

(** ** The request handler *)

Section HandlerFacts.

Variable PORT : Z.
Variable clock : nat -> datetime.
Variable percent : pystr -> list pyval -> option pystr.

Ltac prefix_tac :=
  eexists; rewrite <- ?app_assoc; reflexivity.

Ltac infix_tac :=
  unfold html;
  repeat first [ solve [apply Prefix_Infix; prefix_tac] | apply Infix_skip ].

Lemma html_encodable (self : request) (now : datetime) :
  Forall encodable (html PORT self now).
Proof.
  unfold html.
  repeat match goal with
         | |- Forall _ (_ ++ _) => apply Forall_app; split
         end;
    first [ apply lit_encodable
          | apply ascii_only_encodable, str_of_int_ascii
          | apply ascii_only_encodable, isoformat_ascii
          | constructor; [left; reflexivity | constructor] ].
Qed.

Lemma html_Port (self : request) (now : datetime) :
  Infix (lit "Port: <code>" ++ str_of_int PORT ++ lit "</code>")
        (html PORT self now).
Proof. infix_tac. Qed.

Lemma html_path (self : request) (now : datetime) :
  Infix (lit "Request URL: <code>" ++ lit (path self) ++ lit "</code>")
        (html PORT self now).
Proof. infix_tac. Qed.

Lemma html_command (self : request) (now : datetime) :
  Infix (lit "Request Method: <code>" ++ lit (command self) ++ lit "</code>")
        (html PORT self now).
Proof. infix_tac. Qed.

Lemma html_Time (self : request) (now : datetime) :
  Infix (lit "Time: <code>" ++ isoformat now ++ lit "</code>")
        (html PORT self now).
Proof. infix_tac. Qed.

(** The run of [do_GET] on a new handler object. *)
Lemma do_GET_run (self : request) (n : nat) (out : pystr) :
  exists data,
    encode (html PORT self (clock n)) = Some data /\
    do_GET PORT clock self (mkState n out []) =
      (inr tt,
       mkState (S n) out
         [ SendResponse 200;
           SendHeader (lit "Content-Type") (lit "text/html");
           SendHeader (lit "Access-Control-Allow-Origin") (lit "*");
           EndHeaders;
           Write data ]).
Proof.
  destruct (encode_total _ (html_encodable self (clock n))) as [data E].
  exists data. split; [exact E|].
  cbv beta iota delta
    [do_GET bind emit datetime_now or_raise ret ticks stdout sent app].
  rewrite E. reflexivity.
Qed.

Lemma embeds_ascii (x : pystr) (s : pystr) (data : pybytes) :
  encode s = Some data -> Infix x s -> ascii_only x -> Infix x data.
Proof.
  intros E I A. destruct (encode_Infix x s data E I) as (b & Eb & Ib).
  rewrite (encode_ascii x A) in Eb. now injection Eb as <-.
Qed.

Lemma label_ascii (a : string) (x : pystr) (b : string) :
  ascii_only (lit a) -> ascii_only x -> ascii_only (lit b) ->
  ascii_only (lit a ++ x ++ lit b).
Proof. intros. repeat apply ascii_only_app; assumption. Qed.

Ltac lit_ascii := unfold ascii_only; repeat constructor.

Ltac serve_tac R :=
  unfold serve; rewrite R;
  unfold response_of; cbn [status_of headers_of body_of sent];
  rewrite app_nil_r; reflexivity.

(** The UTF-8 bytes of a list item whose field is a text of characters
    below 256. *)
Lemma encode_item (a b p : string) :
  ascii_only (lit a) -> ascii_only (lit b) ->
  encode (lit a ++ lit p ++ lit b) = Some (lit a ++ utf8_latin1 p ++ lit b).
Proof.
  intros A B.
  rewrite !encode_app, (encode_ascii _ A), (encode_ascii _ B), encode_lit.
  reflexivity.
Qed.

Lemma item_in_body (a b p : string) (s : pystr) (data : pybytes) :
  ascii_only (lit a) -> ascii_only (lit b) ->
  encode s = Some data -> Infix (lit a ++ lit p ++ lit b) s ->
  Infix (lit a ++ utf8_latin1 p ++ lit b) data.
Proof.
  intros A B E I. destruct (encode_Infix _ _ _ E I) as (bx & Ex & Ix).
  rewrite (encode_item a b p A B) in Ex. now injection Ex as <-.
Qed.

(** C1, as the code has it.  Whatever the request, [do_GET] does not raise
    and builds the response 200 with the headers [Content-Type: text/html]
    and [Access-Control-Allow-Origin: *] (the two it sends itself) and, as
    body, the UTF-8 bytes of the page.  The page, and byte for byte the
    body, hold the list items [Port: <code>P</code>] with [P] the decimal
    numeral of the port (it reads back as the port),
    [Request URL: <code>S</code>] with [S] the path as received,
    [Request Method: <code>M</code>] with [M] the command, and
    [Time: <code>T</code>] with [T] the text [isoformat] gives for the
    clock read during the call, which for a reading in range is
    [YYYY-MM-DDTHH:MM:SS] or [YYYY-MM-DDTHH:MM:SS.ffffff] and reads back
    as that reading.  The port is between [<code>] and [</code>]: it does
    not follow [Port: ] directly. *)
Theorem do_GET_response (self : request) (n : nat) (out : pystr) :
  exists data,
    serve (do_GET PORT clock) self n out =
      (inr (mkResponse (Some 200%Z)
              [ (lit "Content-Type", lit "text/html");
                (lit "Access-Control-Allow-Origin", lit "*") ]
              data),
       mkState (S n) out
         [ SendResponse 200;
           SendHeader (lit "Content-Type") (lit "text/html");
           SendHeader (lit "Access-Control-Allow-Origin") (lit "*");
           EndHeaders;
           Write data ]) /\
    encode (html PORT self (clock n)) = Some data /\
    Infix (lit "Port: <code>" ++ str_of_int PORT ++ lit "</code>")
          (html PORT self (clock n)) /\
    Infix (lit "Request URL: <code>" ++ lit (path self) ++ lit "</code>")
          (html PORT self (clock n)) /\
    Infix (lit "Request Method: <code>" ++ lit (command self) ++ lit "</code>")
          (html PORT self (clock n)) /\
    Infix (lit "Time: <code>" ++ isoformat (clock n) ++ lit "</code>")
          (html PORT self (clock n)) /\
    Infix (lit "Port: <code>" ++ str_of_int PORT ++ lit "</code>") data /\
    Infix (lit "Request URL: <code>" ++ utf8_latin1 (path self)
             ++ lit "</code>") data /\
    Infix (lit "Request Method: <code>" ++ utf8_latin1 (command self)
             ++ lit "</code>") data /\
    Infix (lit "Time: <code>" ++ isoformat (clock n) ++ lit "</code>") data /\
    (exists numeral, str_of_int PORT = lit numeral /\
                     read_decimal numeral = Some PORT) /\
    (in_range (clock n) ->
     fromisoformat (isoformat (clock n)) = Some (clock n)).
Proof.
  destruct (do_GET_run self n out) as (data & E & R).
  exists data.
  split; [serve_tac R|].
  split; [exact E|].
  split; [apply html_Port|]. split; [apply html_path|].
  split; [apply html_command|]. split; [apply html_Time|].
  split.
  { apply (embeds_ascii _ _ _ E (html_Port self (clock n))).
    apply label_ascii; [lit_ascii|apply str_of_int_ascii|lit_ascii]. }
  split.
  { apply (item_in_body _ _ _ (html PORT self (clock n)));
      [lit_ascii|lit_ascii|exact E|apply html_path]. }
  split.
  { apply (item_in_body _ _ _ (html PORT self (clock n)));
      [lit_ascii|lit_ascii|exact E|apply html_command]. }
  split.
  { apply (embeds_ascii _ _ _ E (html_Time self (clock n))).
    apply label_ascii; [lit_ascii|apply isoformat_ascii|lit_ascii]. }
  split; [apply str_of_int_reads_back|].
  apply fromisoformat_isoformat.
Qed.

(** C2.  The page holds the path of the request exactly as the handler
    received it, between [Request URL: <code>] and [</code>]: nothing is
    escaped, replaced or cut.  The body holds, between the same two
    labels, the UTF-8 bytes of the path, which are the path itself, byte
    for byte, exactly when the path is ASCII. *)
Theorem do_GET_echoes_path (self : request) (n : nat) (out : pystr) :
  exists data st,
    serve (do_GET PORT clock) self n out =
      (inr (mkResponse (Some 200%Z)
              [ (lit "Content-Type", lit "text/html");
                (lit "Access-Control-Allow-Origin", lit "*") ]
              data), st) /\
    encode (html PORT self (clock n)) = Some data /\
    Infix (lit "Request URL: <code>" ++ lit (path self) ++ lit "</code>")
          (html PORT self (clock n)) /\
    Infix (lit (path self)) (html PORT self (clock n)) /\
    Infix (lit "Request URL: <code>" ++ utf8_latin1 (path self)
             ++ lit "</code>") data /\
    Infix (utf8_latin1 (path self)) data /\
    (utf8_latin1 (path self) = lit (path self) <->
     ascii_only (lit (path self))).
Proof.
  destruct (do_GET_run self n out) as (data & E & R).
  exists data. eexists.
  split; [serve_tac R|].
  split; [exact E|].
  split; [apply html_path|].
  split; [infix_tac|].
  split.
  { apply (item_in_body _ _ _ (html PORT self (clock n)));
      [lit_ascii|lit_ascii|exact E|apply html_path]. }
  split.
  { assert (I : Infix (lit (path self)) (html PORT self (clock n)))
      by infix_tac.
    destruct (encode_Infix _ _ _ E I) as (bx & Ex & Ix).
    rewrite encode_lit in Ex. now injection Ex as <-. }
  apply utf8_latin1_ascii.
Qed.

(** An ASCII path is in the body byte for byte. *)
Lemma do_GET_echoes_ascii_path (self : request) (n : nat) (out : pystr)
    (data : pybytes) :
  ascii_only (lit (path self)) ->
  encode (html PORT self (clock n)) = Some data ->
  Infix (lit (path self)) data.
Proof.
  intros A E. apply (embeds_ascii _ _ _ E); [infix_tac|exact A].
Qed.

(** C3.  Whatever the request, its path included, [do_OPTIONS] does not
    raise and builds the response 204 with an empty body, sending the three
    headers [Access-Control-Allow-Origin: *],
    [Access-Control-Allow-Methods: GET, POST, PUT, DELETE, OPTIONS] and
    [Access-Control-Allow-Headers: Content-Type] and no other; it leaves
    the clock and the standard output alone.  From any state it adds the
    same five calls, in this order, and returns. *)
Theorem do_OPTIONS_response (self : request) (n : nat) (out : pystr) :
  serve do_OPTIONS self n out =
    (inr (mkResponse (Some 204%Z)
            [ (lit "Access-Control-Allow-Origin", lit "*");
              (lit "Access-Control-Allow-Methods",
               lit "GET, POST, PUT, DELETE, OPTIONS");
              (lit "Access-Control-Allow-Headers", lit "Content-Type") ]
            []),
     mkState n out
       [ SendResponse 204;
         SendHeader (lit "Access-Control-Allow-Origin") (lit "*");
         SendHeader (lit "Access-Control-Allow-Methods")
                    (lit "GET, POST, PUT, DELETE, OPTIONS");
         SendHeader (lit "Access-Control-Allow-Headers") (lit "Content-Type");
         EndHeaders ]) /\
  (forall s : state,
      do_OPTIONS self s =
        (inr tt,
         mkState (ticks s) (stdout s)
           (sent s ++
            [ SendResponse 204;
              SendHeader (lit "Access-Control-Allow-Origin") (lit "*");
              SendHeader (lit "Access-Control-Allow-Methods")
                         (lit "GET, POST, PUT, DELETE, OPTIONS");
              SendHeader (lit "Access-Control-Allow-Headers")
                         (lit "Content-Type");
              EndHeaders ]))).
Proof.
  split; [reflexivity|]. intros s.
  cbv beta iota delta [do_OPTIONS bind emit ticks stdout sent].
  rewrite <- !app_assoc. reflexivity.
Qed.

(** The response of [do_GET] and the Time item in its body. *)
Lemma do_GET_body_Time (self : request) (n : nat) (out : pystr) :
  exists data st,
    serve (do_GET PORT clock) self n out =
      (inr (mkResponse (Some 200%Z)
              [ (lit "Content-Type", lit "text/html");
                (lit "Access-Control-Allow-Origin", lit "*") ] data), st) /\
    Infix (lit "Time: <code>" ++ isoformat (clock n) ++ lit "</code>") data.
Proof.
  destruct (do_GET_run self n out) as (data & E & R).
  exists data. eexists. split; [serve_tac R|].
  apply (embeds_ascii _ _ _ E (html_Time self (clock n))).
  apply label_ascii; [lit_ascii|apply isoformat_ascii|lit_ascii].
Qed.

Lemma percent_record (a b c : pystr) :
  percent_s (dq ++ lit "%s" ++ dq ++ lit " %s %s") [VStr a; VStr b; VStr c]
  = Some (dq ++ a ++ dq ++ lit " " ++ b ++ lit " " ++ c).
Proof.
  cbn. rewrite app_nil_r. reflexivity.
Qed.

Lemma log_request_run (self : Served.connection) (code : Z) (s : state) :
  Served.log_request clock self code s =
    (inr tt,
     mkState (S (ticks s))
       (stdout s ++ (isoformat (clock (ticks s)) ++ lit " - " ++ dq
                       ++ lit (Served.requestline self) ++ dq ++ lit " "
                       ++ str_of_int code ++ lit " -") ++ nl)
       (sent s)).
Proof.
  unfold Served.log_request.
  cbv beta iota delta
    [log_message bind print datetime_now or_raise ret ticks stdout sent].
  rewrite percent_record. reflexivity.
Qed.

Lemma served_OPTIONS_run (self : Served.connection) (n : nat) (out : pystr) :
  Served.do_OPTIONS clock self (mkState n out []) =
    (inr tt,
     mkState (S n)
       (out ++ (isoformat (clock n) ++ lit " - " ++ dq
                  ++ lit (Served.requestline self) ++ dq ++ lit " 204 -") ++ nl)
       [ SendResponse 204;
         SendHeader (lit "Access-Control-Allow-Origin") (lit "*");
         SendHeader (lit "Access-Control-Allow-Methods")
                    (lit "GET, POST, PUT, DELETE, OPTIONS");
         SendHeader (lit "Access-Control-Allow-Headers") (lit "Content-Type");
         EndHeaders ]).
Proof.
  unfold Served.do_OPTIONS, Served.send_response.
  unfold bind at 1 2. rewrite log_request_run. reflexivity.
Qed.

Lemma served_GET_run (self : Served.connection) (n : nat) (out : pystr) :
  exists data,
    encode (html PORT (Served.parsed self) (clock (S n))) = Some data /\
    Served.do_GET PORT clock self (mkState n out []) =
      (inr tt,
       mkState (S (S n))
         (out ++ (isoformat (clock n) ++ lit " - " ++ dq
                    ++ lit (Served.requestline self) ++ dq ++ lit " 200 -")
              ++ nl)
         [ SendResponse 200;
           SendHeader (lit "Content-Type") (lit "text/html");
           SendHeader (lit "Access-Control-Allow-Origin") (lit "*");
           EndHeaders;
           Write data ]).
Proof.
  destruct (encode_total _ (html_encodable (Served.parsed self)
                              (clock (S n)))) as [data E].
  exists data. split; [exact E|].
  unfold Served.do_GET, Served.send_response.
  unfold bind at 1 2. rewrite log_request_run.
  cbv beta iota delta
    [bind emit datetime_now or_raise ret ticks stdout sent List.app].
  rewrite E. reflexivity.
Qed.

(** C9, as the code has it.  [log_message] reads the clock once and
    prints one text: the timestamp [isoformat] gives for that reading,
    [ - ], and the message [format % args], ended by the line feed of
    [print].  For a request handled by [do_GET] or [do_OPTIONS] this
    happens exactly once, where the handler calls [send_response], and the
    message is the request line in double quotes, the status code and
    [-]: no other text is printed, the address of the client is not in
    the line, and it ends with the only line feed written besides those in
    the request line.  The [do_GET] page is built after the line is
    printed, from the next reading of the clock.  A timestamp of a reading
    in range reads back as that reading. *)
Theorem log_message_line (c : Served.connection) (n : nat) (out : pystr) :
  (forall (self : request) (format : pystr) (args : list pyval)
          (msg : pystr) (s : state),
      percent format args = Some msg ->
      log_message clock percent self format args s =
        (inr tt,
         mkState (S (ticks s))
                 (stdout s
                    ++ (isoformat (clock (ticks s)) ++ lit " - " ++ msg)
                    ++ nl)
                 (sent s))) /\
  (exists data,
      encode (html PORT (Served.parsed c) (clock (S n))) = Some data /\
      Served.do_GET PORT clock c (mkState n out []) =
        (inr tt,
         mkState (S (S n))
           (out ++ (isoformat (clock n) ++ lit " - " ++ dq
                      ++ lit (Served.requestline c) ++ dq ++ lit " 200 -")
                ++ nl)
           [ SendResponse 200;
             SendHeader (lit "Content-Type") (lit "text/html");
             SendHeader (lit "Access-Control-Allow-Origin") (lit "*");
             EndHeaders;
             Write data ])) /\
  Served.do_OPTIONS clock c (mkState n out []) =
    (inr tt,
     mkState (S n)
       (out ++ (isoformat (clock n) ++ lit " - " ++ dq
                  ++ lit (Served.requestline c) ++ dq ++ lit " 204 -")
            ++ nl)
       [ SendResponse 204;
         SendHeader (lit "Access-Control-Allow-Origin") (lit "*");
         SendHeader (lit "Access-Control-Allow-Methods")
                    (lit "GET, POST, PUT, DELETE, OPTIONS");
         SendHeader (lit "Access-Control-Allow-Headers") (lit "Content-Type");
         EndHeaders ]) /\
  (forall code : pystr,
      count_occ N.eq_dec
        ((isoformat (clock n) ++ lit " - " ++ dq
            ++ lit (Served.requestline c) ++ dq ++ lit " " ++ code
            ++ lit " -") ++ nl) 10
      = S (count_occ N.eq_dec (lit (Served.requestline c) ++ code) 10)) /\
  (in_range (clock n) ->
   fromisoformat (isoformat (clock n)) = Some (clock n)).
Proof.
  split; [|split; [|split; [|split]]].
  - intros self format args msg s E.
    cbv beta iota delta
      [log_message bind print datetime_now or_raise ret ticks stdout sent].
    rewrite E. reflexivity.
  - apply served_GET_run.
  - apply served_OPTIONS_run.
  - intros code. rewrite !count_occ_app.
    rewrite (stamp_chars_no_nl _ (isoformat_chars (clock n))).
    change (count_occ N.eq_dec (lit " - ") 10) with O.
    change (count_occ N.eq_dec (lit " -") 10) with O.
    change (count_occ N.eq_dec (lit " ") 10) with O.
    change (count_occ N.eq_dec dq 10) with O.
    change (count_occ N.eq_dec nl 10) with 1%nat. lia.
  - apply fromisoformat_isoformat.
Qed.

(** The library's dispatch reaches the two handlers by their names. *)
Lemma handle_GET (self : request) :
  command self = "GET"%string ->
  handle_one_request PORT clock self = do_GET PORT clock self.
Proof. unfold handle_one_request. intros ->. reflexivity. Qed.

Lemma handle_OPTIONS (self : request) :
  command self = "OPTIONS"%string ->
  handle_one_request PORT clock self = do_OPTIONS self.
Proof. unfold handle_one_request. intros ->. reflexivity. Qed.

(** C7.  For a command other than [GET] and [OPTIONS] the class has no
    method ["do_" + command]; the request is left to the library, whose
    answer is [send_error(501)], and no handler of the script runs. *)
Theorem other_methods_not_implemented (self : request) (s : state) :
  command self <> "GET"%string -> command self <> "OPTIONS"%string ->
  do_method PORT clock ("do_" ++ command self) = None /\
  handle_one_request PORT clock self s =
    (inr tt, mkState (ticks s) (stdout s) (sent s ++ [SendError 501])).
Proof.
  intros HG HO.
  assert (E : do_method PORT clock ("do_" ++ command self) = None).
  { unfold do_method. cbn [String.append String.eqb Ascii.eqb Bool.eqb].
    destruct (String.eqb_spec (command self) "OPTIONS"); [contradiction|].
    destruct (String.eqb_spec (command self) "GET"); [contradiction|].
    reflexivity. }
  split; [exact E|]. unfold handle_one_request. rewrite E. reflexivity.
Qed.

(** C8, as the code has it.  Each body carries, in its Time item, the
    text [isoformat] gives for the clock as read while that request was
    handled.  For readings in range the texts follow the readings: the two
    timestamps are the same exactly when the two readings are, the second
    is the greater text exactly when its reading is the later, and the
    second is greater than or equal to the first exactly when its reading
    is not the earlier. *)
Theorem sequential_GET_timestamps (r1 r2 : request) (n m : nat)
    (out1 out2 : pystr) :
  (n < m)%nat ->
  exists d1 d2 s1 s2,
    serve (do_GET PORT clock) r1 n out1 =
      (inr (mkResponse (Some 200%Z)
              [ (lit "Content-Type", lit "text/html");
                (lit "Access-Control-Allow-Origin", lit "*") ] d1), s1) /\
    serve (do_GET PORT clock) r2 m out2 =
      (inr (mkResponse (Some 200%Z)
              [ (lit "Content-Type", lit "text/html");
                (lit "Access-Control-Allow-Origin", lit "*") ] d2), s2) /\
    Infix (lit "Time: <code>" ++ isoformat (clock n) ++ lit "</code>") d1 /\
    Infix (lit "Time: <code>" ++ isoformat (clock m) ++ lit "</code>") d2 /\
    (in_range (clock n) -> in_range (clock m) ->
     (isoformat (clock n) = isoformat (clock m) <-> clock n = clock m) /\
     (str_lt (isoformat (clock n)) (isoformat (clock m)) = true <->
      dt_lt (clock n) (clock m) = true) /\
     (str_le (isoformat (clock n)) (isoformat (clock m)) = true <->
      dt_lt (clock m) (clock n) = false)).
Proof.
  intros _.
  destruct (do_GET_body_Time r1 n out1) as (d1 & s1 & R1 & I1).
  destruct (do_GET_body_Time r2 m out2) as (d2 & s2 & R2 & I2).
  exists d1, d2, s1, s2.
  repeat (split; [assumption|]).
  apply isoformat_order.
Qed.

End HandlerFacts.

(** C10.  [do_OPTIONS] does not read the request: as a computation it is
    the same for any two requests, and the responses it builds are the
    same whatever the requests, the clock and the standard output. *)
Theorem do_OPTIONS_ignores_request (r1 r2 : request) (n1 n2 : nat)
    (out1 out2 : pystr) :
  do_OPTIONS r1 = do_OPTIONS r2 /\
  fst (serve do_OPTIONS r1 n1 out1) = fst (serve do_OPTIONS r2 n2 out2) /\
  sent (snd (serve do_OPTIONS r1 n1 out1))
  = sent (snd (serve do_OPTIONS r2 n2 out2)).
Proof. repeat split. Qed.

(** ** The program *)

Section ScriptFacts.

Variable int : pystr -> option Z.
Variable bind_error : Z -> option exn.

(** C4, as the code has it.  A port argument that [int] rejects is not
    replaced by the default: evaluating [PORT] raises [ValueError] and no
    port is configured. *)
Theorem PORT_invalid_argument (argv : list pystr) :
  (1 < List.length argv)%nat ->
  int (nth 1 argv []) = None ->
  Config.PORT int argv = inl ValueError /\
  Config.PORT int argv <> inr 5173%Z.
Proof.
  intros L E. unfold Config.PORT.
  apply Nat.ltb_lt in L. rewrite L, E. split; [reflexivity|discriminate].
Qed.

(** A port argument that [int] accepts is the port. *)
Lemma PORT_valid_argument (argv : list pystr) (p : Z) :
  (1 < List.length argv)%nat ->
  int (nth 1 argv []) = Some p ->
  Config.PORT int argv = inr p.
Proof.
  intros L E. unfold Config.PORT.
  apply Nat.ltb_lt in L. now rewrite L, E.
Qed.

(** C5.  With a first argument that [int] rejects the program stops at
    line 12 on the uncaught [ValueError]: the exit code is 1 and nothing
    was bound or printed before. *)
Theorem invalid_port_exits_before_bind (argv : list pystr) :
  (1 < List.length argv)%nat ->
  int (nth 1 argv []) = None ->
  Script.main int bind_error argv = ([], Script.Crashed ValueError) /\
  Script.exit_code (snd (Script.main int bind_error argv)) = Some 1%Z /\
  (forall host port,
      ~ In (Script.Bind host port) (fst (Script.main int bind_error argv))).
Proof.
  intros L E. unfold Script.main, Config.PORT.
  apply Nat.ltb_lt in L. rewrite L, E. cbn.
  repeat split. intros host port [].
Qed.

(** C6.  Without a port argument [PORT] is 5173, the address the program
    binds is [0.0.0.0] port 5173, and it serves on it unless the bind
    fails. *)
Theorem default_port (argv : list pystr) :
  (List.length argv <= 1)%nat ->
  Config.PORT int argv = inr 5173%Z /\
  Script.main int bind_error argv =
    match bind_error 5173%Z with
    | Some e => ([], Script.Crashed e)
    | None =>
        (Script.Bind (lit "0.0.0.0") 5173%Z
           :: map Script.Print (Script.banner 5173%Z) ++ [Script.ServeForever],
         Script.Serving 5173%Z)
    end.
Proof.
  intros L.
  assert (E : Config.PORT int argv = inr 5173%Z).
  { unfold Config.PORT.
    replace (1 <? List.length argv)%nat with false; [reflexivity|].
    symmetry. apply Nat.ltb_ge. exact L. }
  split; [exact E|]. unfold Script.main. rewrite E. reflexivity.
Qed.

End ScriptFacts.

(** ** The theorems at sample inputs *)

Import Sample.

Ltac range_tac :=
  unfold in_range; cbn;
  repeat split; try lia; let HH := fresh in intro HH; discriminate HH.

Example isoformat_ex1 :
  isoformat (mkDatetime 2024 3 9 7 5 0 0) = lit "2024-03-09T07:05:00".
Proof. reflexivity. Qed.

Example isoformat_ex2 :
  isoformat (mkDatetime 2024 11 3 1 59 59 1200)
  = lit "2024-11-03T01:59:59.001200".
Proof. reflexivity. Qed.

Example encode_ex1 :
  encode check_mark = Some [0xE2; 0x9C; 0x85] /\
  encode rocket = Some [0xF0; 0x9F; 0x9A; 0x80] /\
  encode [0xE9] = Some [0xC3; 0xA9] /\
  encode [0xD800] = None.
Proof. repeat split. Qed.

Example str_of_int_ex :
  str_of_int 5173 = lit "5173" /\ str_of_int (-8) = lit "-8" /\
  str_of_int 0 = lit "0".
Proof. repeat split. Qed.

Example int_plain_ex :
  Config.int_plain (lit "8080") = Some 8080%Z /\
  Config.int_plain (lit "-1") = Some (-1)%Z /\
  Config.int_plain (lit "abc") = None /\
  Config.int_plain (lit "") = None /\
  Config.int_plain (lit "80a") = None.
Proof. repeat split. Qed.

(** The page of port 5173 has the port item as
    [Port: <code>5173</code>]; the numeral does not directly follow
    [Port: ] anywhere in the page or in the body. *)
Remark page_of_5173 :
  exists data,
    encode (html 5173 get_root (stalled_clock 0)) = Some data /\
    Infix (lit "Port: <code>5173</code>") data /\
    ~ Infix (lit "Port: 5173") (html 5173 get_root (stalled_clock 0)) /\
    ~ Infix (lit "Port: 5173") data.
Proof.
  destruct (encode (html 5173 get_root (stalled_clock 0))) as [data|] eqn:E;
    [|vm_compute in E; discriminate E].
  exists data. split; [reflexivity|].
  split.
  { apply (embeds_ascii _ _ _ E (html_Port 5173 get_root (stalled_clock 0))).
    apply label_ascii; try apply str_of_int_ascii;
      unfold ascii_only; repeat constructor. }
  split.
  - intros H. apply Infix_occurs in H. vm_compute in H. discriminate H.
  - intros H. apply Infix_occurs in H.
    vm_compute in E. injection E as <-. vm_compute in H. discriminate H.
Qed.

(** The empty path, and a path with a character above U+007F: the page
    has the character, the body its two UTF-8 bytes. *)
Example page_echoes_empty_path :
  Infix (lit "<li>Request URL: <code></code></li>")
        (html 5173 (mkRequest "" "GET") (stalled_clock 0)).
Proof. apply occurs_Infix. vm_compute. reflexivity. Qed.

Example body_of_latin1_path :
  exists data,
    encode (html 5173 (mkRequest (String "/" (String "233" EmptyString)) "GET")
                 (stalled_clock 0)) = Some data /\
    Infix (lit "<code>" ++ [47; 233] ++ lit "</code>")
          (html 5173 (mkRequest (String "/" (String "233" EmptyString)) "GET")
                (stalled_clock 0)) /\
    Infix (lit "<code>" ++ [47; 195; 169] ++ lit "</code>") data.
Proof.
  eexists. split; [vm_compute; reflexivity|].
  split; apply occurs_Infix; vm_compute; reflexivity.
Qed.

(** A path with markup is in the page as it came. *)
Example page_echoes_markup :
  Infix (lit "<li>Request URL: <code>/<script>alert(1)</script></code></li>")
        (html 5173 (mkRequest "/<script>alert(1)</script>" "GET")
              (stalled_clock 0)).
Proof.
  apply occurs_Infix. vm_compute. reflexivity.
Qed.

(** C1 at the port 5173 and a reading with microseconds. *)
Lemma do_GET_response_witness :
  in_range (stalled_clock 0) /\
  fromisoformat (lit "2024-03-09T07:05:00.001200") = Some (stalled_clock 0) /\
  exists data,
    fst (serve (do_GET 5173 stalled_clock) get_root 0 [])
    = inr (mkResponse (Some 200%Z)
             [ (lit "Content-Type", lit "text/html");
               (lit "Access-Control-Allow-Origin", lit "*") ] data) /\
    Infix (lit "Time: <code>2024-03-09T07:05:00.001200</code>") data.
Proof.
  assert (R : in_range (stalled_clock 0)) by range_tac.
  destruct (do_GET_response 5173 stalled_clock get_root 0 [])
    as (data & S & _ & _ & _ & _ & _ & _ & _ & _ & T & _ & F).
  split; [exact R|]. split; [exact (F R)|].
  exists data. split; [rewrite S; reflexivity|exact T].
Defined.

(** C1 as the claim has it fails: the body for port 5173 has the port as
    [Port: <code>5173</code>], and [Port: 5173] is nowhere in it. *)
Lemma do_GET_response_counterexample :
  exists data st,
    serve (do_GET 5173 stalled_clock) get_root 0 [] =
      (inr (mkResponse (Some 200%Z)
              [ (lit "Content-Type", lit "text/html");
                (lit "Access-Control-Allow-Origin", lit "*") ] data), st) /\
    Infix (lit "Port: <code>5173</code>") data /\
    ~ Infix (lit "Port: 5173") data.
Proof.
  destruct (do_GET_run 5173 stalled_clock get_root 0 []) as (data & E & R).
  exists data. eexists. split.
  { unfold serve. rewrite R. unfold response_of.
    cbn [status_of headers_of body_of sent]. rewrite app_nil_r.
    reflexivity. }
  split.
  - apply (embeds_ascii _ _ _ E (html_Port 5173 get_root (stalled_clock 0))).
    apply label_ascii; try apply str_of_int_ascii;
      unfold ascii_only; repeat constructor.
  - intros H. apply Infix_occurs in H.
    vm_compute in E. injection E as <-. vm_compute in H. discriminate H.
Qed.

(** C9 at the record of [GET / HTTP/1.1] answered with 200. *)
Lemma log_message_line_witness :
  percent_s record_format record_args
  = Some (dq ++ lit "GET / HTTP/1.1" ++ dq ++ lit " 200 -") /\
  stdout (snd (log_message stalled_clock percent_s get_root
                 record_format record_args (mkState 0 [] [])))
  = lit "2024-03-09T07:05:00.001200 - " ++ dq ++ lit "GET / HTTP/1.1" ++ dq
      ++ lit " 200 -" ++ nl /\
  in_range (stalled_clock 0) /\
  fromisoformat (isoformat (stalled_clock 0)) = Some (stalled_clock 0).
Proof.
  assert (E : percent_s record_format record_args
              = Some (dq ++ lit "GET / HTTP/1.1" ++ dq ++ lit " 200 -"))
    by (vm_compute; reflexivity).
  assert (R : in_range (stalled_clock 0)) by range_tac.
  destruct (log_message_line 5173 stalled_clock percent_s conn_get 0 [])
    as (L & _ & _ & _ & F).
  split; [exact E|]. split.
  - rewrite (L get_root record_format record_args _ (mkState 0 [] []) E).
    vm_compute. reflexivity.
  - split; [exact R|exact (F R)].
Defined.

(** C9 as the claim has it fails: the line printed for a GET request from
    203.0.113.7 has the timestamp, the request line and the status, and
    not the address of the client. *)
Lemma log_message_line_counterexample :
  Served.client_address conn_get = ("203.0.113.7"%string, 54321%Z) /\
  stdout (snd (Served.do_GET 5173 stalled_clock conn_get (mkState 0 [] [])))
  = lit "2024-03-09T07:05:00.001200 - " ++ dq ++ lit "GET / HTTP/1.1" ++ dq
      ++ lit " 200 -" ++ nl /\
  ~ Infix (lit "203.0.113.7")
      (stdout (snd (Served.do_GET 5173 stalled_clock conn_get
                      (mkState 0 [] [])))).
Proof.
  split; [reflexivity|].
  destruct (served_GET_run 5173 stalled_clock conn_get 0 [])
    as (data & _ & R).
  rewrite R. cbn [snd stdout]. split; [vm_compute; reflexivity|].
  intros H. apply Infix_occurs in H. vm_compute in H. discriminate H.
Qed.

(** C7 at [POST /]. *)
Lemma other_methods_not_implemented_witness :
  command post_root <> "GET"%string /\
  command post_root <> "OPTIONS"%string /\
  fst (serve (handle_one_request 5173 stalled_clock) post_root 0 [])
  = inr (mkResponse (Some 501%Z) [] []).
Proof.
  assert (HG : command post_root <> "GET"%string)
    by (simpl; intro H; discriminate H).
  assert (HO : command post_root <> "OPTIONS"%string)
    by (simpl; intro H; discriminate H).
  split; [exact HG|]. split; [exact HO|].
  unfold serve.
  rewrite (proj2 (other_methods_not_implemented 5173 stalled_clock post_root
                    (mkState 0 [] []) HG HO)).
  reflexivity.
Defined.

(** C8 at a clock that advances between the two requests. *)
Lemma sequential_GET_timestamps_witness :
  (0 < 2)%nat /\
  in_range (ticking_clock 0) /\ in_range (ticking_clock 2) /\
  dt_lt (ticking_clock 0) (ticking_clock 2) = true /\
  isoformat (ticking_clock 0) <> isoformat (ticking_clock 2) /\
  str_lt (isoformat (ticking_clock 0)) (isoformat (ticking_clock 2)) = true /\
  str_le (isoformat (ticking_clock 0)) (isoformat (ticking_clock 2)) = true.
Proof.
  assert (L : (0 < 2)%nat) by lia.
  assert (R0 : in_range (ticking_clock 0)) by range_tac.
  assert (R2 : in_range (ticking_clock 2)) by range_tac.
  assert (D : dt_lt (ticking_clock 0) (ticking_clock 2) = true)
    by (vm_compute; reflexivity).
  assert (D' : dt_lt (ticking_clock 2) (ticking_clock 0) = false)
    by (vm_compute; reflexivity).
  destruct (sequential_GET_timestamps 5173 ticking_clock get_root get_query
              0 2 [] [] L)
    as (d1 & d2 & s1 & s2 & _ & _ & _ & _ & O).
  destruct (O R0 R2) as (EQ & LT & LE).
  repeat (split; [assumption|]).
  split.
  - intros H. apply EQ in H. apply (f_equal second) in H.
    vm_compute in H. discriminate H.
  - split; [now apply LT|now apply LE].
Defined.

(** C8 as the claim has it fails.  With the same reading twice the two
    responses are the same, byte for byte, and so is every timestamp in
    them; with the clock set back between the requests the second
    timestamp is the smaller text. *)
Lemma sequential_GET_timestamps_counterexample :
  fst (serve (do_GET 5173 stalled_clock) get_root 0 [])
  = fst (serve (do_GET 5173 stalled_clock) get_root 1 []) /\
  isoformat (stalled_clock 0) = isoformat (stalled_clock 1) /\
  (exists d1 d2 s1 s2,
      serve (do_GET 5173 set_back_clock) get_root 0 [] =
        (inr (mkResponse (Some 200%Z)
                [ (lit "Content-Type", lit "text/html");
                  (lit "Access-Control-Allow-Origin", lit "*") ] d1), s1) /\
      serve (do_GET 5173 set_back_clock) get_root 1 [] =
        (inr (mkResponse (Some 200%Z)
                [ (lit "Content-Type", lit "text/html");
                  (lit "Access-Control-Allow-Origin", lit "*") ] d2), s2) /\
      Infix (lit "Time: <code>2024-11-03T01:59:59.500000</code>") d1 /\
      Infix (lit "Time: <code>2024-11-03T01:00:00.250000</code>") d2) /\
  str_le (lit "2024-11-03T01:59:59.500000")
         (lit "2024-11-03T01:00:00.250000") = false.
Proof.
  split; [vm_compute; reflexivity|]. split; [reflexivity|].
  split; [|vm_compute; reflexivity].
  destruct (do_GET_body_Time 5173 set_back_clock get_root 0 [])
    as (d1 & s1 & R1 & I1).
  destruct (do_GET_body_Time 5173 set_back_clock get_root 1 [])
    as (d2 & s2 & R2 & I2).
  exists d1, d2, s1, s2. repeat split; assumption.
Qed.

(** C4 as the claim has it fails: with the argument [abc] no port is
    configured, 5173 or other. *)
Lemma PORT_invalid_argument_counterexample :
  (1 < List.length [lit "test-server.py"; lit "abc"])%nat /\
  Config.int_plain (nth 1 [lit "test-server.py"; lit "abc"] []) = None /\
  Config.PORT Config.int_plain [lit "test-server.py"; lit "abc"]
  = inl ValueError /\
  Config.PORT Config.int_plain [lit "test-server.py"; lit "abc"]
  <> inr 5173%Z.
Proof.
  split; [simpl; lia|]. split; [reflexivity|].
  split; [reflexivity|discriminate].
Qed.

(** C4 at the argument [12x]. *)
Lemma PORT_invalid_argument_witness :
  (1 < List.length [lit "test-server.py"; lit "12x"])%nat /\
  Config.int_plain (nth 1 [lit "test-server.py"; lit "12x"] []) = None /\
  Config.PORT Config.int_plain [lit "test-server.py"; lit "12x"]
  = inl ValueError.
Proof.
  assert (L : (1 < List.length [lit "test-server.py"; lit "12x"])%nat)
    by (simpl; lia).
  assert (E : Config.int_plain (nth 1 [lit "test-server.py"; lit "12x"] [])
              = None) by (vm_compute; reflexivity).
  split; [exact L|]. split; [exact E|].
  exact (proj1 (PORT_invalid_argument Config.int_plain _ L E)).
Defined.

(** C5 at the argument [abc]. *)
Lemma invalid_port_exits_before_bind_witness :
  (1 < List.length [lit "test-server.py"; lit "abc"])%nat /\
  Config.int_plain (nth 1 [lit "test-server.py"; lit "abc"] []) = None /\
  Script.main Config.int_plain bind_ok [lit "test-server.py"; lit "abc"]
  = ([], Script.Crashed ValueError).
Proof.
  assert (L : (1 < List.length [lit "test-server.py"; lit "abc"])%nat)
    by (simpl; lia).
  assert (E : Config.int_plain (nth 1 [lit "test-server.py"; lit "abc"] [])
              = None) by (vm_compute; reflexivity).
  split; [exact L|]. split; [exact E|].
  exact (proj1 (invalid_port_exits_before_bind Config.int_plain bind_ok
                  _ L E)).
Defined.

(** C6 at the command line without arguments. *)
Lemma default_port_witness :
  (List.length [lit "test-server.py"] <= 1)%nat /\
  Config.PORT Config.int_plain [lit "test-server.py"] = inr 5173%Z /\
  snd (Script.main Config.int_plain bind_ok [lit "test-server.py"])
  = Script.Serving 5173%Z.
Proof.
  assert (L : (List.length [lit "test-server.py"] <= 1)%nat) by (simpl; lia).
  destruct (default_port Config.int_plain bind_ok _ L) as [P M].
  split; [exact L|]. split; [exact P|]. rewrite M. reflexivity.
Defined.

(** The program with a port argument, and interrupted while serving. *)
Example main_8080 :
  Script.main Config.int_plain bind_ok [lit "test-server.py"; lit "8080"]
  = (Script.Bind (lit "0.0.0.0") 8080%Z
       :: map Script.Print (Script.banner 8080%Z) ++ [Script.ServeForever],
     Script.Serving 8080%Z) /\
  Script.exit_code (snd (Script.interrupt (Script.Serving 8080%Z)))
  = Some 0%Z.
Proof. split; reflexivity. Qed.

(** * Further properties of the script *)

(** ** Line 12 and the program, lines 100 to 116 *)

Section ProgramFacts.

Variable int : pystr -> option Z.
Variable bind_error : Z -> option exn.

(** X1.  [PORT] is 5173 exactly when there is no argument or the argument
    reads as 5173, and it is another port [p] exactly when the argument
    reads as [p]; only [sys.argv[1]] is looked at, whatever the program
    name and the further arguments. *)
Theorem PORT_characterised (argv : list pystr) (p : Z) :
  Config.PORT int argv = inr p <->
  ((List.length argv <= 1)%nat /\ p = 5173%Z) \/
  ((1 < List.length argv)%nat /\ int (nth 1 argv []) = Some p).
Proof.
  unfold Config.PORT. destruct (1 <? List.length argv)%nat eqn:L.
  - apply Nat.ltb_lt in L. destruct (int (nth 1 argv [])) as [q|]; split.
    + intros H. injection H as ->. right. now split.
    + intros [[H _]|[_ H]]; [lia|]. now injection H as ->.
    + discriminate.
    + intros [[H _]|[_ H]]; [lia|discriminate].
  - apply Nat.ltb_ge in L. split.
    + intros H. injection H as <-. left. now split.
    + intros [[_ ->]|[H _]]; [reflexivity|lia].
Qed.

End ProgramFacts.


(** ** More on the handlers, lines 14 to 98 *)

Section HandlerMore.

Variable PORT : Z.
Variable clock : nat -> datetime.





Lemma Infix_app_l {A} (x a b : list A) : Infix x a -> Infix x (a ++ b).
Proof.
  intros (pre & post & ->). exists pre, (post ++ b).
  now rewrite <- !app_assoc.
Qed.

(** An occurrence that starts at the end of one piece of a concatenation
    and ends at the start of the next but one. *)
Lemma Infix_mid (s1 x s2 b1 b2 rest : pystr) :
  skipn (List.length b1 - List.length s1) b1 = s1 ->
  firstn (List.length s2) b2 = s2 ->
  Infix (s1 ++ x ++ s2) (b1 ++ x ++ b2 ++ rest).
Proof.
  intros H1 H2.
  exists (firstn (List.length b1 - List.length s1) b1),
         (skipn (List.length s2) b2 ++ rest).
  rewrite <- (firstn_skipn (List.length b1 - List.length s1) b1) at 1.
  rewrite <- (firstn_skipn (List.length s2) b2) at 1.
  rewrite H1, H2. now rewrite <- !app_assoc.
Qed.

Ltac mid_tac :=
  unfold html;
  repeat first [ solve [apply Infix_mid; vm_compute; reflexivity]
               | apply Infix_skip ].

Ltac closed_tac :=
  unfold html; rewrite !app_assoc;
  repeat first [ solve [apply occurs_Infix; vm_compute; reflexivity]
               | apply Infix_app_l ].

(** An occurrence that starts at the end of the last but one piece and
    ends in the last. *)
Lemma Infix_mid_end (s1 x s2 b1 b2 : pystr) :
  skipn (List.length b1 - List.length s1) b1 = s1 ->
  firstn (List.length s2) b2 = s2 ->
  Infix (s1 ++ x ++ s2) (b1 ++ x ++ b2).
Proof.
  intros H1 H2. rewrite <- (app_nil_r b2). now apply Infix_mid.
Qed.

Ltac mid_end_tac :=
  unfold html;
  repeat first [ solve [apply Infix_mid_end; vm_compute; reflexivity]
               | apply Infix_skip ].

Ltac ascii_tac :=
  first [ apply label_ascii;
          [ unfold ascii_only; repeat constructor
          | apply str_of_int_ascii
          | unfold ascii_only; repeat constructor ]
        | unfold ascii_only; repeat constructor ].

(** The places of the page that name the port, and its charset. *)
Lemma page_title (self : request) (now : datetime) :
  Infix (lit "<title>Test Server - Port " ++ str_of_int PORT ++ lit "</title>")
        (html PORT self now).
Proof. mid_tac. Qed.

Lemma page_direct_url (self : request) (now : datetime) :
  Infix (lit "<code>http://localhost:" ++ str_of_int PORT ++ lit "/</code>")
        (html PORT self now).
Proof. mid_tac. Qed.

Lemma page_proxy_url (self : request) (now : datetime) :
  Infix (lit "<code>http://localhost:8000/proxy/" ++ str_of_int PORT
           ++ lit "/</code>")
        (html PORT self now).
Proof. mid_tac. Qed.

Lemma page_curl_direct (self : request) (now : datetime) :
  Infix (lit "curl http://localhost:" ++ str_of_int PORT ++ lit "/")
        (html PORT self now).
Proof. mid_tac. Qed.

Lemma page_curl_proxy (self : request) (now : datetime) :
  Infix (lit "curl http://localhost:8000/proxy/" ++ str_of_int PORT
           ++ lit "/</code></pre>")
        (html PORT self now).
Proof. mid_end_tac. Qed.

Lemma page_charset (self : request) (now : datetime) :
  Infix (lit "<meta charset=" ++ dq ++ lit "UTF-8" ++ dq ++ lit ">")
        (html PORT self now).
Proof. closed_tac. Qed.

(** X5.  Besides the Port item, the body of every GET answer names the
    configured port in the title, in the direct URL
    [http://localhost:P/], in the proxy URL
    [http://localhost:8000/proxy/P/] and in the two [curl] lines, byte for
    byte; and the page declares the charset UTF-8, which is the encoding
    the body is written in. *)
Theorem body_names_port (self : request) (n : nat) (out : pystr) :
  exists data st,
    serve (do_GET PORT clock) self n out =
      (inr (mkResponse (Some 200%Z)
              [ (lit "Content-Type", lit "text/html");
                (lit "Access-Control-Allow-Origin", lit "*") ] data), st) /\
    encode (html PORT self (clock n)) = Some data /\
    Infix (lit "<title>Test Server - Port " ++ str_of_int PORT
             ++ lit "</title>") data /\
    Infix (lit "<code>http://localhost:" ++ str_of_int PORT
             ++ lit "/</code>") data /\
    Infix (lit "<code>http://localhost:8000/proxy/" ++ str_of_int PORT
             ++ lit "/</code>") data /\
    Infix (lit "curl http://localhost:" ++ str_of_int PORT ++ lit "/") data /\
    Infix (lit "curl http://localhost:8000/proxy/" ++ str_of_int PORT
             ++ lit "/</code></pre>") data /\
    Infix (lit "<meta charset=" ++ dq ++ lit "UTF-8" ++ dq ++ lit ">") data.
Proof.
  destruct (do_GET_run PORT clock self n out) as (data & E & R).
  exists data. eexists.
  split.
  { unfold serve. rewrite R. unfold response_of.
    cbn [status_of headers_of body_of sent]. rewrite app_nil_r.
    reflexivity. }
  split; [exact E|].
  split; [apply (embeds_ascii _ _ _ E (page_title self _)); ascii_tac|].
  split; [apply (embeds_ascii _ _ _ E (page_direct_url self _)); ascii_tac|].
  split; [apply (embeds_ascii _ _ _ E (page_proxy_url self _)); ascii_tac|].
  split; [apply (embeds_ascii _ _ _ E (page_curl_direct self _)); ascii_tac|].
  split; [apply (embeds_ascii _ _ _ E (page_curl_proxy self _)); ascii_tac|].
  apply (embeds_ascii _ _ _ E (page_charset self _)); ascii_tac.
Qed.

Lemma N_of_ascii_inj (a b : ascii) : N_of_ascii a = N_of_ascii b -> a = b.
Proof.
  intros H. rewrite <- (ascii_N_embedding a), <- (ascii_N_embedding b).
  now rewrite H.
Qed.

Lemma lit_inj (a b : string) : lit a = lit b -> a = b.
Proof.
  unfold lit. revert b. induction a as [|c a IH]; intros [|d b] H;
    simpl in H; try discriminate; [reflexivity|].
  injection H as H1 H2. f_equal; [now apply N_of_ascii_inj|now apply IH].
Qed.

(** The page keeps paths apart. *)
Lemma page_determines_path (p1 p2 c : string) (now : datetime) :
  html PORT (mkRequest p1 c) now = html PORT (mkRequest p2 c) now ->
  p1 = p2.
Proof.
  unfold html. cbn [path command]. intros H.
  repeat apply app_inv_head in H.
  apply app_inv_tail in H. now apply lit_inj.
Qed.

(** X6.  The echo loses nothing: two GET requests with the same command,
    answered at the same reading of the clock with the same response, had
    the same path. *)
Theorem same_response_same_path (p1 p2 c : string) (n : nat)
    (out1 out2 : pystr) :
  fst (serve (do_GET PORT clock) (mkRequest p1 c) n out1)
  = fst (serve (do_GET PORT clock) (mkRequest p2 c) n out2) ->
  p1 = p2.
Proof.
  unfold serve.
  destruct (do_GET_run PORT clock (mkRequest p1 c) n out1) as (d1 & E1 & R1).
  destruct (do_GET_run PORT clock (mkRequest p2 c) n out2) as (d2 & E2 & R2).
  rewrite R1, R2. unfold response_of.
  cbn [fst status_of headers_of body_of sent]. rewrite !app_nil_r.
  intros H. injection H as H. subst d2.
  apply (page_determines_path p1 p2 c (clock n)).
  exact (encode_inj _ _ _ E1 E2).
Qed.

End HandlerMore.

(** ** Timestamps and the log, lines 15 and 16 *)

Section LogFacts.

Variable clock : nat -> datetime.
Variable percent : pystr -> list pyval -> option pystr.

Lemma zpad_in_range (w : nat) (n : N) :
  n < 10 ^ N.of_nat w -> zpad w n = digits w n.
Proof. intros H. unfold zpad. apply N.ltb_lt in H. now rewrite H. Qed.

(** X8.  The timestamp that opens a log line and that fills the Time
    item has a fixed width: 19 characters when the microsecond is zero,
    26 otherwise. *)
Theorem isoformat_length (d : datetime) :
  in_range d ->
  List.length (isoformat d) = if microsecond d =? 0 then 19%nat else 26%nat.
Proof.
  intros (H1 & H2 & H3 & H4 & H5 & H6 & H7). unfold isoformat.
  rewrite (zpad_in_range 4), !(zpad_in_range 2);
    try (change (N.of_nat 4) with 4; change (N.of_nat 2) with 2;
         change (10 ^ 4) with 10000; change (10 ^ 2) with 100; lia).
  rewrite !length_app, !digits_length.
  destruct (microsecond d =? 0); [reflexivity|].
  rewrite length_app, (zpad_in_range 6), digits_length; [reflexivity|].
  change (N.of_nat 6) with 6. change (10 ^ 6) with 1000000. lia.
Qed.

Ltac pow_bound :=
  match goal with
  | |- _ < 10 ^ N.of_nat ?w =>
      let v := eval vm_compute in (10 ^ N.of_nat w) in
      change (10 ^ N.of_nat w) with v; lia
  end.

(** The end of a timestamp and what is written after it: a text that
    starts below [.] sorts before a fraction. *)
Lemma fraction_then (x y c : N) (s t : pystr) :
  y < 10 ^ 6 -> c < 46 ->
  (x <? y) || ((x =? y) && false) = true ->
  str_lt ((if x =? 0 then [] else lit "." ++ zpad 6 x) ++ c :: s)
         ((if y =? 0 then [] else lit "." ++ zpad 6 y) ++ t) = true.
Proof.
  intros Hy Hc H. rewrite andb_false_r, orb_false_r in H. apply N.ltb_lt in H.
  replace (y =? 0) with false by (symmetry; apply N.eqb_neq; lia).
  destruct (x =? 0) eqn:E.
  - cbn [List.app lit list_ascii_of_string map str_lt].
    change (N_of_ascii ".") with 46.
    apply orb_true_iff. left. now apply N.ltb_lt.
  - rewrite <- !app_assoc, str_lt_app_same. unfold zpad.
    change (N.of_nat 6) with 6.
    replace (x <? 10 ^ 6) with true by (symmetry; apply N.ltb_lt; lia).
    replace (y <? 10 ^ 6) with true by (symmetry; apply N.ltb_lt; lia).
    apply str_lt_app_lt; [now rewrite !digits_length|].
    now apply digits_lt.
Qed.

(** A timestamp followed by a text that starts below [.] sorts before a
    later timestamp followed by anything. *)
Lemma isoformat_lt_then (a b : datetime) (c : N) (s t : pystr) :
  in_range a -> in_range b -> dt_lt a b = true -> c < 46 ->
  str_lt (isoformat a ++ c :: s) (isoformat b ++ t) = true.
Proof.
  intros (Ha1 & Ha2 & Ha3 & Ha4 & Ha5 & Ha6 & Ha7)
         (Hb1 & Hb2 & Hb3 & Hb4 & Hb5 & Hb6 & Hb7) H Hc.
  unfold dt_lt, fields in H. simpl in H. unfold isoformat.
  rewrite <- !app_assoc.
  apply field_step; [pow_bound|pow_bound|].
  destruct (year a <? year b); [reflexivity|].
  destruct (year a =? year b); [simpl in H|discriminate].
  apply field_step; [pow_bound|pow_bound|].
  destruct (month a <? month b); [reflexivity|].
  destruct (month a =? month b); [simpl in H|discriminate].
  apply field_step; [pow_bound|pow_bound|].
  destruct (day a <? day b); [reflexivity|].
  destruct (day a =? day b); [simpl in H|discriminate].
  apply field_step; [pow_bound|pow_bound|].
  destruct (hour a <? hour b); [reflexivity|].
  destruct (hour a =? hour b); [simpl in H|discriminate].
  apply field_step; [pow_bound|pow_bound|].
  destruct (minute a <? minute b); [reflexivity|].
  destruct (minute a =? minute b); [simpl in H|discriminate].
  apply (field_step 2 (second a) (second b) []); [pow_bound|pow_bound|].
  destruct (second a <? second b); [reflexivity|].
  destruct (second a =? second b); [simpl in H|discriminate].
  apply fraction_then; [change (10 ^ 6) with 1000000; lia|exact Hc|exact H].
Qed.

(** X9.  Log lines sort by time: when the clock reading of one
    [log_message] call is earlier than that of another, the line of the
    first is the smaller text, whatever the two messages are. *)
Theorem log_lines_sort_by_time (r1 r2 : request) (f1 f2 : pystr)
    (a1 a2 : list pyval) (m1 m2 : pystr) (n m : nat) :
  in_range (clock n) -> in_range (clock m) ->
  dt_lt (clock n) (clock m) = true ->
  percent f1 a1 = Some m1 -> percent f2 a2 = Some m2 ->
  exists l1 l2,
    stdout (snd (log_message clock percent r1 f1 a1 (mkState n [] [])))
    = l1 ++ nl /\
    stdout (snd (log_message clock percent r2 f2 a2 (mkState m [] [])))
    = l2 ++ nl /\
    l1 = isoformat (clock n) ++ lit " - " ++ m1 /\
    l2 = isoformat (clock m) ++ lit " - " ++ m2 /\
    str_lt l1 l2 = true.
Proof.
  intros Rn Rm L E1 E2.
  exists (isoformat (clock n) ++ lit " - " ++ m1),
         (isoformat (clock m) ++ lit " - " ++ m2).
  split; [|split; [|split; [reflexivity|split; [reflexivity|]]]].
  - cbv beta iota delta
      [log_message bind print datetime_now or_raise ret ticks stdout sent snd].
    rewrite E1. reflexivity.
  - cbv beta iota delta
      [log_message bind print datetime_now or_raise ret ticks stdout sent snd].
    rewrite E2. reflexivity.
  - apply (isoformat_lt_then _ _ 32 (lit "- " ++ m1)); try assumption.
    reflexivity.
Qed.

(** X10.  When [format % args] raises, [log_message] raises: the clock
    has been read, but nothing is printed, not even the timestamp. *)
Theorem log_message_failure (self : request) (format : pystr)
    (args : list pyval) (s : state) :
  percent format args = None ->
  exists e,
    log_message clock percent self format args s =
      (inl e, mkState (S (ticks s)) (stdout s) (sent s)).
Proof.
  intros E. eexists.
  cbv beta iota delta
    [log_message bind print datetime_now or_raise raise ret ticks stdout sent].
  rewrite E. reflexivity.
Qed.

End LogFacts.

(** ** The further properties at sample inputs *)

(** X6 at two requests for [/]. *)
Lemma same_response_same_path_witness :
  fst (serve (do_GET 5173 stalled_clock) (mkRequest "/" "GET") 0 [])
  = fst (serve (do_GET 5173 stalled_clock) (mkRequest "/" "GET") 0 (lit "x"))
  /\ "/"%string = "/"%string.
Proof.
  assert (H : fst (serve (do_GET 5173 stalled_clock) (mkRequest "/" "GET") 0 [])
              = fst (serve (do_GET 5173 stalled_clock) (mkRequest "/" "GET")
                       0 (lit "x")))
    by (vm_compute; reflexivity).
  split; [exact H|].
  exact (same_response_same_path 5173 stalled_clock "/" "/" "GET" 0 []
           (lit "x") H).
Defined.

(** X8 at a reading with microseconds. *)
Lemma isoformat_length_witness :
  in_range (stalled_clock 0) /\
  List.length (isoformat (stalled_clock 0)) = 26%nat.
Proof.
  assert (R : in_range (stalled_clock 0)) by range_tac.
  split; [exact R|]. exact (isoformat_length (stalled_clock 0) R).
Defined.

(** X9 at two records, the second logged two seconds after the first. *)
Lemma log_lines_sort_by_time_witness :
  in_range (ticking_clock 0) /\ in_range (ticking_clock 2) /\
  dt_lt (ticking_clock 0) (ticking_clock 2) = true /\
  percent_s record_format record_args
  = Some (dq ++ lit "GET / HTTP/1.1" ++ dq ++ lit " 200 -") /\
  str_lt (lit "2024-03-09T07:05:00 - " ++ dq ++ lit "GET / HTTP/1.1" ++ dq
            ++ lit " 200 -")
         (lit "2024-03-09T07:05:02 - " ++ dq ++ lit "GET / HTTP/1.1" ++ dq
            ++ lit " 200 -") = true.
Proof.
  assert (R0 : in_range (ticking_clock 0)) by range_tac.
  assert (R2 : in_range (ticking_clock 2)) by range_tac.
  assert (D : dt_lt (ticking_clock 0) (ticking_clock 2) = true)
    by (vm_compute; reflexivity).
  assert (E : percent_s record_format record_args
              = Some (dq ++ lit "GET / HTTP/1.1" ++ dq ++ lit " 200 -"))
    by (vm_compute; reflexivity).
  repeat (split; [assumption|]).
  destruct (log_lines_sort_by_time ticking_clock percent_s get_root get_root
              record_format record_format record_args record_args _ _ 0 2
              R0 R2 D E E)
    as (l1 & l2 & _ & _ & -> & -> & L).
  exact L.
Defined.

(** X10 at a record format without its arguments. *)
Lemma log_message_failure_witness :
  percent_s record_format [] = None /\
  exists e,
    log_message stalled_clock percent_s get_root record_format []
      (mkState 0 [] [])
    = (inl e, mkState 1 [] []).
Proof.
  assert (E : percent_s record_format [] = None) by (vm_compute; reflexivity).
  split; [exact E|].
  exact (log_message_failure stalled_clock percent_s get_root record_format
           [] (mkState 0 [] []) E).
Defined.

(** The program when port 5173 is in use. *)
Example main_port_in_use :
  Script.main Config.int_plain bind_5173_in_use [lit "test-server.py"]
  = ([], Script.Crashed OSError) /\
  snd (Script.main Config.int_plain bind_5173_in_use
         [lit "test-server.py"; lit "8080"; lit "ignored"])
  = Script.Serving 8080%Z.
Proof. repeat split. Qed.
